(** * smart-parking: reservation lifecycle of the frontend, embedded in Rocq

    The development follows the TypeScript sources:
    - [pages/basic-user/ParkingSlots.tsx]: [getSlotStatus], the buttons that
      [renderParkingSpots] draws from its result, [handleVehiclePlateChange];
    - [pages/admin/AdminReservationsPage.tsx]: the periodic status update
      run by [setInterval], [getStatusBadge] and the buttons of a card;
    - [contexts/AuthContext.tsx]: [login].

    JavaScript values are modelled as the code uses them: a [Date] is its
    time value in milliseconds or the Invalid Date, strings are compared
    with [===], a JSON object is a record, [localStorage] is a finite map
    from keys to strings. *)

From Stdlib Require Import ZArith String Ascii List Bool Lia.
From Stdlib Require Import Sorted Permutation.
From stdpp Require Import base option list strings gmap.
Import ListNotations.

Local Open Scope string_scope.
Local Open Scope Z_scope.

(** ** JavaScript dates *)

Module JsDate.

(** The time value of a Date object; [None] is the Invalid Date, whose
    time value is NaN. *)
Definition Date : Type := option Z.

(** The relational operators convert both dates to numbers; a comparison
    involving NaN is false. *)
Definition lt (a b : Date) : bool :=
  match a, b with
  | Some x, Some y => x <? y
  | _, _ => false
  end.

Definition le (a b : Date) : bool :=
  match a, b with
  | Some x, Some y => x <=? y
  | _, _ => false
  end.

Definition gt (a b : Date) : bool := lt b a.
Definition ge (a b : Date) : bool := le b a.

End JsDate.

Abbreviation Date := JsDate.Date.

(** ** Thrown values and completions *)

(** A thrown JavaScript value, as far as the [catch] block of [login] looks
    at it: [axios.isAxiosError(error)], [error instanceof Error],
    [error.response?.status] and [error.message]. *)
Record JsError : Type := mkJsError {
  isAxiosError : bool;
  instanceofError : bool;
  response_status : option Z;
  message : string
}.

(** [error.response?.status === code] *)
Definition response_status_is (error : JsError) (code : Z) : bool :=
  match response_status error with
  | Some c => c =? code
  | None => false
  end.

(** [new Error(msg)] *)
Definition Error (msg : string) : JsError :=
  {| isAxiosError := false; instanceofError := true;
     response_status := None; message := msg |}.

(** How a call or an awaited promise completes. *)
Inductive Completion (A : Type) : Type :=
| Normal (v : A)
| Throw (e : JsError).
Arguments Normal {A} v.
Arguments Throw {A} e.

(** ** Data of the slot view ([types/parking.ts], [types/auth.ts]) *)

(** [ParkingSpot.current_reservation].  [status] is the string of the JSON
    payload; the two time stamps stand for the Date objects that
    [new Date(...)] builds from the payload's strings. *)
Record CurrentReservation : Type := mkCurrentReservation {
  cr_id : Z;
  cr_status : string;
  cr_start_time : Date;
  cr_end_time : Date;
  cr_user : Z
}.

Record ParkingSpot : Type := mkParkingSpot {
  spot_id : Z;
  slot_number : string;
  is_occupied : bool;
  is_reserved : bool;
  spot_location : Z;
  current_reservation : option CurrentReservation
}.

(** [User] of [types/auth.ts], the type of [useAuth().user]. *)
Record User : Type := mkUser {
  user_id : Z;
  email : string;
  role : string;
  first_name : string;
  last_name : string;
  notification_preference : string;
  user_created_at : string
}.

(** The object literal returned by [getSlotStatus]; the two optional
    properties are [None] when the literal does not set them. *)
Record SlotStatus : Type := mkSlotStatus {
  text : string;
  variant : string;
  canCancel : option bool;
  reservationId : option Z
}.

Definition status_Occupied : SlotStatus :=
  {| text := "Occupied"; variant := "danger"; canCancel := None; reservationId := None |}.

Definition status_Available : SlotStatus :=
  {| text := "Available"; variant := "success"; canCancel := None; reservationId := None |}.

Definition status_Confirmed : SlotStatus :=
  {| text := "Confirmed"; variant := "primary"; canCancel := None; reservationId := None |}.

Definition status_Pending (rid : Z) : SlotStatus :=
  {| text := "Pending"; variant := "warning"; canCancel := Some true; reservationId := Some rid |}.

(** ** [getSlotStatus] *)

(** [user && spot.current_reservation.user === user.id] *)
Definition viewer_owns (user : option User) (r : CurrentReservation) : bool :=
  match user with
  | Some u => cr_user r =? user_id u
  | None => false
  end.

(** The two statements after the [if (spot.current_reservation)] block. *)
Definition occupancy_fallback (spot : ParkingSpot) : SlotStatus :=
  if is_occupied spot then status_Occupied else status_Available.

Definition getSlotStatus (currentTime : Date) (user : option User) (spot : ParkingSpot)
  : SlotStatus :=
  let now := currentTime in
  match current_reservation spot with
  | Some r =>
      let startTime := cr_start_time r in
      let endTime := cr_end_time r in
      let isWithinTimeFrame := JsDate.ge now startTime && JsDate.le now endTime in
      if String.eqb (cr_status r) "PENDING" && viewer_owns user r then
        status_Pending (cr_id r)
      else if String.eqb (cr_status r) "CONFIRMED" && isWithinTimeFrame then
        status_Occupied
      else if String.eqb (cr_status r) "CONFIRMED" && JsDate.lt now startTime then
        status_Confirmed
      else occupancy_fallback spot
  | None => occupancy_fallback spot
  end.

(** ** The actions [renderParkingSpots] offers on a slot card *)

Inductive Action : Type :=
| RESERVE
| CANCEL (reservationId : option Z).

(** [status.variant === 'success' && status.text === 'Available'] *)
Definition isAvailable (status : SlotStatus) : bool :=
  String.eqb (variant status) "success" && String.eqb (text status) "Available".

(** [status.variant === 'dark' && status.text === 'Completed'] *)
Definition isCompleted (status : SlotStatus) : bool :=
  String.eqb (variant status) "dark" && String.eqb (text status) "Completed".

(** [status.variant === 'primary' && status.text === 'Confirmed'] *)
Definition isConfirmed (status : SlotStatus) : bool :=
  String.eqb (variant status) "primary" && String.eqb (text status) "Confirmed".

(** The CSS class of the card. *)
Definition slotClassName (status : SlotStatus) : string :=
  if isCompleted status then "completed"
  else if isConfirmed status then "confirmed"
  else if String.eqb (variant status) "success" then "available"
  else if String.eqb (variant status) "danger" then "occupied"
  else "pending".

(** Truthiness of the optional boolean [status.canCancel]. *)
Definition truthy (b : option bool) : bool :=
  match b with
  | Some true => true
  | _ => false
  end.

(** The Reserve button (and the card's click handler) is there when
    [isAvailable]; the Cancel button when [status.canCancel], and it passes
    [status.reservationId] to [handleCancelReservation]. *)
Definition slotActions (status : SlotStatus) : list Action :=
  (if isAvailable status then [RESERVE] else []) ++
  (if truthy (canCancel status) then [CANCEL (reservationId status)] else []).

(** The labels of the lifecycle, and the label a displayed text stands for. *)
Inductive Label : Type :=
| AVAILABLE | PENDING | CONFIRMED | OCCUPIED | COMPLETED | EXPIRED.

Definition Label_eqb (a b : Label) : bool :=
  match a, b with
  | AVAILABLE, AVAILABLE | PENDING, PENDING | CONFIRMED, CONFIRMED
  | OCCUPIED, OCCUPIED | COMPLETED, COMPLETED | EXPIRED, EXPIRED => true
  | _, _ => false
  end.

Definition label_of_text (t : string) : option Label :=
  if String.eqb t "Available" then Some AVAILABLE
  else if String.eqb t "Pending" then Some PENDING
  else if String.eqb t "Confirmed" then Some CONFIRMED
  else if String.eqb t "Occupied" then Some OCCUPIED
  else if String.eqb t "Completed" then Some COMPLETED
  else if String.eqb t "Expired" then Some EXPIRED
  else None.

Definition slotLabel (status : SlotStatus) : option Label := label_of_text (text status).

(** What a slot card shows and offers: label and actions. *)
Definition evaluate (now : Date) (viewer : option User) (spot : ParkingSpot)
  : option Label * list Action :=
  let status := getSlotStatus now viewer spot in
  (slotLabel status, slotActions status).


(** The guards of the three [return]s inside [if (spot.current_reservation)]. *)
Definition guard_pending_owner (viewer : option User) (r : CurrentReservation) : bool :=
  String.eqb (cr_status r) "PENDING" && viewer_owns viewer r.

Definition guard_in_use (now : Date) (r : CurrentReservation) : bool :=
  String.eqb (cr_status r) "CONFIRMED" &&
  (JsDate.ge now (cr_start_time r) && JsDate.le now (cr_end_time r)).

Definition guard_upcoming (now : Date) (r : CurrentReservation) : bool :=
  String.eqb (cr_status r) "CONFIRMED" && JsDate.lt now (cr_start_time r).

(** Some [return] inside the reservation block is taken. *)
Definition reservation_rule_matches (now : Date) (viewer : option User) (spot : ParkingSpot)
  : bool :=
  match current_reservation spot with
  | Some r => guard_pending_owner viewer r || guard_in_use now r || guard_upcoming now r
  | None => false
  end.

(** The two progressions of the lifecycle, PENDING, CONFIRMED, OCCUPIED,
    COMPLETED and PENDING, EXPIRED.  Both start from AVAILABLE, the label
    of a slot before it is reserved: it is among the labels a finished
    reservation must never go back to. *)
Definition progressions : list (list Label) :=
  [[AVAILABLE; PENDING; CONFIRMED; OCCUPIED; COMPLETED];
   [AVAILABLE; PENDING; EXPIRED]].

Fixpoint position (l : Label) (chain : list Label) : option nat :=
  match chain with
  | [] => None
  | l' :: chain' =>
      if Label_eqb l l' then Some O
      else match position l chain' with
           | Some n => Some (S n)
           | None => None
           end
  end.

Definition earlier_in (chain : list Label) (a b : Label) : bool :=
  match position a chain, position b chain with
  | Some i, Some j => (i <? j)%nat
  | _, _ => false
  end.

(** [a] comes strictly before [b] in one of the progressions. *)
Definition earlier (a b : Label) : bool :=
  existsb (fun chain => earlier_in chain a b) progressions.

(** Going from the first label shown to the second is a move backward. *)
Definition moves_backward (first second : option Label) : bool :=
  match first, second with
  | Some a, Some b => earlier b a
  | _, _ => false
  end.

(** ** Admin reservations page ([AdminReservationsPage.tsx]) *)

(** [interface Reservation]; the nested [user] object has the single field
    [email]. *)
Record Reservation : Type := mkReservation {
  id : Z;
  user_email_nested : string;
  user_email : string;
  parking_slot : Z;
  location_name : string;
  res_slot_number : string;
  start_time : Date;
  end_time : Date;
  vehicle_plate : string;
  status : string;
  created_at : string;
  can_be_cancelled : bool
}.

(** [{ ...reservation, status: s }] *)
Definition with_status (reservation : Reservation) (s : string) : Reservation :=
  {| id := id reservation;
     user_email_nested := user_email_nested reservation;
     user_email := user_email reservation;
     parking_slot := parking_slot reservation;
     location_name := location_name reservation;
     res_slot_number := res_slot_number reservation;
     start_time := start_time reservation;
     end_time := end_time reservation;
     vehicle_plate := vehicle_plate reservation;
     status := s;
     created_at := created_at reservation;
     can_be_cancelled := can_be_cancelled reservation |}.

(** The callback of [prev.map] in the interval effect; [now] is the
    [new Date()] read for this reservation. *)
Definition autoUpdate (now : Date) (reservation : Reservation) : Reservation :=
  let endTime := end_time reservation in
  if String.eqb (status reservation) "PENDING" && JsDate.le endTime now then
    with_status reservation "EXPIRED"
  else if String.eqb (status reservation) "CONFIRMED" && JsDate.le endTime now then
    with_status reservation "COMPLETED"
  else reservation.

(** One firing of the interval: [setAllReservations(prev => prev.map(...))].
    The callback reads the clock once per element; [clock i] is the reading
    taken for the element at index [i]. *)
Definition autoUpdateAll (clock : nat -> Date) (prev : list Reservation) : list Reservation :=
  imap (fun i reservation => autoUpdate (clock i) reservation) prev.


(** The same firings seen from one reservation. *)
Definition autoUpdateMany (nows : list Date) (reservation : Reservation) : Reservation :=
  fold_left (fun r now => autoUpdate now r) nows reservation.

(** The [<Badge>] element of [getStatusBadge]: its [bg] and [className]
    properties and its text. *)
Record Badge : Type := mkBadge {
  bg : option string;
  className : string;
  badge_text : string
}.

(** The object literal [variants], read at a status. *)
Definition variants (s : string) : option string :=
  if String.eqb s "PENDING" then Some "warning"
  else if String.eqb s "CONFIRMED" then Some "success"
  else if String.eqb s "CANCELLED" then Some "danger"
  else if String.eqb s "COMPLETED" then Some "info"
  else if String.eqb s "EXPIRED" then Some "secondary"
  else None.

Definition getStatusBadge (now : Date) (reservation : Reservation) : Badge :=
  let endTime := end_time reservation in
  let isPastEndTime := JsDate.le endTime now in
  if String.eqb (status reservation) "CONFIRMED" && isPastEndTime then
    {| bg := Some "info"; className := "text-white"; badge_text := "COMPLETED" |}
  else
    {| bg := variants (status reservation);
       className := if String.eqb (status reservation) "EXPIRED" then "text-dark" else "";
       badge_text := status reservation |}.

(** The buttons of a reservation card in [renderReservationCards]. *)
Inductive AdminAction : Type :=
| DECLINE (reservationId : Z)
| CONFIRM (reservationId : Z).

Definition cardActions (reservation : Reservation) : list AdminAction :=
  if String.eqb (status reservation) "PENDING"
  then [DECLINE (id reservation); CONFIRM (id reservation)]
  else [].

Definition label_of_status (s : string) : option Label :=
  if String.eqb s "PENDING" then Some PENDING
  else if String.eqb s "CONFIRMED" then Some CONFIRMED
  else if String.eqb s "COMPLETED" then Some COMPLETED
  else if String.eqb s "EXPIRED" then Some EXPIRED
  else None.

Definition badgeLabel (b : Badge) : option Label := label_of_status (badge_text b).

(** The statuses after which the lifecycle has ended. *)
Definition isTerminal (s : string) : bool :=
  String.eqb s "CANCELLED" || String.eqb s "COMPLETED" || String.eqb s "EXPIRED".

(** ** Authentication context ([contexts/AuthContext.tsx]) *)

Module Auth.

(** [AuthResponse] of [types/auth.ts]: the body of [POST /api/token/]. *)
Record AuthResponse : Type := mkAuthResponse {
  access : string;
  refresh : string
}.

(** The backend as [login] sees it: the outcome of the two requests.  The
    second one is sent with the [Authorization] header given. *)
Record Server : Type := mkServer {
  post_token : string -> string -> Completion AuthResponse;
  get_users_me : string -> Completion User
}.

(** The React state of [AuthProvider] together with the two ambient
    objects it writes: [localStorage] and the default [Authorization]
    header of axios. *)
Record AuthState : Type := mkAuthState {
  user : option User;
  token : option string;
  loading : bool;
  localStorage : gmap string string;
  axios_Authorization : option string
}.

(** Statements: state passing with exceptions.  The state survives a
    throw, as the [catch] and [finally] blocks see every write made
    before it. *)
Definition M (A : Type) : Type := AuthState -> Completion A * AuthState.

#[export] Instance M_ret : MRet M := fun A v s => (Normal v, s).

#[export] Instance M_bind : MBind M := fun A B f m s =>
  match m s with
  | (Normal v, s') => f v s'
  | (Throw e, s') => (Throw e, s')
  end.

Definition throw {A} (e : JsError) : M A := fun s => (Throw e, s).

Definition await {A} (p : Completion A) : M A := fun s => (p, s).

Definition when (b : bool) (m : M unit) : M unit := if b then m else mret tt.

(** [try { body } catch (error) { handler } finally { finalizer }] *)
Definition try_catch_finally {A} (body : M A) (handler : JsError -> M A)
  (finalizer : M unit) : M A := fun s =>
  let '(c1, s1) := body s in
  let '(c2, s2) :=
    match c1 with
    | Normal v => (Normal v, s1)
    | Throw e => handler e s1
    end in
  let '(c3, s3) := finalizer s2 in
  match c3 with
  | Normal _ => (c2, s3)
  | Throw e => (Throw e, s3)
  end.

Definition setUser (u : option User) : M unit := fun s =>
  (Normal tt, {| user := u; token := token s; loading := loading s;
                 localStorage := localStorage s;
                 axios_Authorization := axios_Authorization s |}).

Definition setToken (t : option string) : M unit := fun s =>
  (Normal tt, {| user := user s; token := t; loading := loading s;
                 localStorage := localStorage s;
                 axios_Authorization := axios_Authorization s |}).

Definition setLoading (b : bool) : M unit := fun s =>
  (Normal tt, {| user := user s; token := token s; loading := b;
                 localStorage := localStorage s;
                 axios_Authorization := axios_Authorization s |}).

Definition localStorage_setItem (key value : string) : M unit := fun s =>
  (Normal tt, {| user := user s; token := token s; loading := loading s;
                 localStorage := <[key := value]> (localStorage s);
                 axios_Authorization := axios_Authorization s |}).

Definition localStorage_removeItem (key : string) : M unit := fun s =>
  (Normal tt, {| user := user s; token := token s; loading := loading s;
                 localStorage := delete key (localStorage s);
                 axios_Authorization := axios_Authorization s |}).

(** Assignment to, and [delete] of,
    [axios.defaults.headers.common['Authorization']]. *)
Definition set_axios_Authorization (h : option string) : M unit := fun s =>
  (Normal tt, {| user := user s; token := token s; loading := loading s;
                 localStorage := localStorage s;
                 axios_Authorization := h |}).

Section Login.

(** [JSON.stringify] on a user object. *)
Variable JSON_stringify : User -> string.

Variable server : Server.

Definition login_try (email password : string) (isAdmin : bool) : M unit :=
  response ← await (post_token server email password);
  let access := access response in
  let refresh := refresh response in
  localStorage_setItem "access_token" access;;
  localStorage_setItem "refresh_token" refresh;;
  userData ← await (get_users_me server ("Bearer " +:+ access));
  when (isAdmin && negb (String.eqb (role userData) "ADMIN"))
       (throw (Error "Not authorized as admin"));;
  localStorage_setItem "user" (JSON_stringify userData);;
  setToken (Some access);;
  setUser (Some userData);;
  set_axios_Authorization (Some ("Bearer " +:+ access)).

Definition login_catch (isAdmin : bool) (error : JsError) : M unit :=
  localStorage_removeItem "access_token";;
  localStorage_removeItem "refresh_token";;
  localStorage_removeItem "user";;
  setToken None;;
  setUser None;;
  set_axios_Authorization None;;
  when (isAxiosError error)
       (if response_status_is error 401 then
          throw (Error "Invalid email or password")
        else if response_status_is error 403 then
          throw (Error (if isAdmin then "Not authorized as admin"
                        else "Please use admin login"))
        else mret tt);;
  throw (Error (if instanceofError error then message error
                else "An error occurred during login")).

Definition login (email password : string) (isAdmin : bool) : M unit :=
  setLoading true;;
  try_catch_finally (login_try email password isAdmin)
                    (login_catch isAdmin)
                    (setLoading false).

(** [logout]: the same clean-up, with nothing to throw. *)
Definition logout : M unit :=
  setLoading true;;
  try_catch_finally
    (localStorage_removeItem "access_token";;
     localStorage_removeItem "refresh_token";;
     localStorage_removeItem "user";;
     setToken None;;
     setUser None;;
     set_axios_Authorization None)
    (fun e => throw e)
    (setLoading false).

End Login.

(** The state holds no session: nothing of it in the React state, in
    [localStorage] or in the axios defaults. *)
Definition noSession (s : AuthState) : Prop :=
  token s = None /\ user s = None /\
  localStorage s !! "access_token" = None /\
  localStorage s !! "refresh_token" = None /\
  localStorage s !! "user" = None /\
  axios_Authorization s = None.

(** The failing outcomes of [login]: the token request is rejected, the
    current-user request is rejected, or the admin form is used by a user
    whose role is not ADMIN. *)
Inductive loginFails (server : Server) (email password : string) (isAdmin : bool) : Prop :=
| token_request_rejected e :
    post_token server email password = Throw e ->
    loginFails server email password isAdmin
| me_request_rejected r e :
    post_token server email password = Normal r ->
    get_users_me server ("Bearer " +:+ access r) = Throw e ->
    loginFails server email password isAdmin
| not_an_admin r u :
    post_token server email password = Normal r ->
    get_users_me server ("Bearer " +:+ access r) = Normal u ->
    isAdmin = true ->
    role u <> "ADMIN" ->
    loginFails server email password isAdmin.

End Auth.

(** ** Regular expressions, as far as the plate input uses them *)

Module Regex.

Inductive t : Type :=
| Empty
| Eps
| Class (ranges : list (ascii * ascii))
| Seq (r1 r2 : t)
| Alt (r1 r2 : t)
| Star (r : t).

Definition in_range (c : ascii) (range : ascii * ascii) : bool :=
  (nat_of_ascii (fst range) <=? nat_of_ascii c)%nat &&
  (nat_of_ascii c <=? nat_of_ascii (snd range))%nat.

(** [c] is in the character class [[a-bc-d...]]. *)
Definition in_class (ranges : list (ascii * ascii)) (c : ascii) : bool :=
  existsb (in_range c) ranges.

Fixpoint nullable (r : t) : bool :=
  match r with
  | Empty => false
  | Eps => true
  | Class _ => false
  | Seq r1 r2 => nullable r1 && nullable r2
  | Alt r1 r2 => nullable r1 || nullable r2
  | Star _ => true
  end.

(** Brzozowski derivative: what is left of [r] after reading [c]. *)
Fixpoint deriv (c : ascii) (r : t) : t :=
  match r with
  | Empty => Empty
  | Eps => Empty
  | Class ranges => if in_class ranges c then Eps else Empty
  | Seq r1 r2 =>
      if nullable r1
      then Alt (Seq (deriv c r1) r2) (deriv c r2)
      else Seq (deriv c r1) r2
  | Alt r1 r2 => Alt (deriv c r1) (deriv c r2)
  | Star r1 => Seq (deriv c r1) (Star r1)
  end.

(** [/^r$/.test(s)]: the whole of [s] matches [r]. *)
Fixpoint test (r : t) (s : string) : bool :=
  match s with
  | EmptyString => nullable r
  | String c s' => test (deriv c r) s'
  end.

(** [r{0,n}] *)
Fixpoint upto (n : nat) (r : t) : t :=
  match n with
  | O => Eps
  | S n' => Alt Eps (Seq r (upto n' r))
  end.

(** The language of a regular expression. *)
Inductive Matches : t -> string -> Prop :=
| MEps : Matches Eps EmptyString
| MClass ranges c :
    in_class ranges c = true -> Matches (Class ranges) (String c EmptyString)
| MSeq r1 r2 s1 s2 :
    Matches r1 s1 -> Matches r2 s2 -> Matches (Seq r1 r2) (s1 +:+ s2)
| MAltL r1 r2 s : Matches r1 s -> Matches (Alt r1 r2) s
| MAltR r1 r2 s : Matches r2 s -> Matches (Alt r1 r2) s
| MStarNil r : Matches (Star r) EmptyString
| MStarApp r s1 s2 :
    Matches r s1 -> Matches (Star r) s2 -> Matches (Star r) (s1 +:+ s2).

(** Every character of [s] is in the class. *)
Fixpoint all_in_class (ranges : list (ascii * ascii)) (s : string) : bool :=
  match s with
  | EmptyString => true
  | String c s' => in_class ranges c && all_in_class ranges s'
  end.

End Regex.

(** ** Vehicle plate input ([ParkingSlots.tsx]) *)

(** [[A-Z0-9]] *)
Definition AZ09 : Regex.t := Regex.Class [("A", "Z"); ("0", "9")]%char.

(** The literal [/^[A-Z0-9]*$/] of the handler. *)
Definition plate_input_regex : Regex.t := Regex.Star AZ09.

(** [^[A-Z0-9]{0,6}$]: at most six characters, each an upper-case letter or
    a digit. *)
Definition plate_regex : Regex.t := Regex.upto 6 AZ09.

(** [String.prototype.toUpperCase] on the letters a-z. *)
Definition ascii_toUpper (c : ascii) : ascii :=
  if Regex.in_range c ("a", "z")%char
  then ascii_of_nat (nat_of_ascii c - 32)
  else c.

Fixpoint ascii_toUpperCase (s : string) : string :=
  match s with
  | EmptyString => EmptyString
  | String c s' => String (ascii_toUpper c) (ascii_toUpperCase s')
  end.

Section VehiclePlate.

(** [String.prototype.toUpperCase]: the handler's guard is applied to its
    result, whatever it does outside a-z. *)
Variable toUpperCase : string -> string.

(** [handleVehiclePlateChange]: [target_value] is [e.target.value], the
    state is the [vehiclePlate] of [useState]. *)
Definition handleVehiclePlateChange (target_value : string) (vehiclePlate : string)
  : string :=
  let value := toUpperCase target_value in
  if Regex.test plate_input_regex value && (String.length value <=? 6)%nat
  then value
  else vehiclePlate.

(** The writes to [vehiclePlate]: a change event of the input, and the
    [setVehiclePlate('')] after a reservation has been created. *)
Inductive PlateEvent : Type :=
| Change (target_value : string)
| Submitted.

Definition plateStep (vehiclePlate : string) (ev : PlateEvent) : string :=
  match ev with
  | Change target_value => handleVehiclePlateChange target_value vehiclePlate
  | Submitted => ""
  end.

(** The plate after a sequence of events, from the initial [useState('')]. *)
Definition plateAfter (events : list PlateEvent) : string :=
  fold_left plateStep events "".

End VehiclePlate.

(** ** The cancel dialog of the slot view ([ParkingSlots.tsx]) *)

Module CancelDialog.

(** The two pieces of state the dialog uses. *)
Record State : Type := mkState {
  reservationToCancel : option Z;
  showCancelModal : bool
}.

(** [useState<number | null>(null)] and [useState(false)] *)
Definition initial : State :=
  {| reservationToCancel := None; showCancelModal := false |}.

(** [handleCancelReservation]; the Cancel button passes
    [status.reservationId!], which is [None] when the status object has no
    such property. *)
Definition handleCancelReservation (reservationId : option Z) (st : State) : State :=
  {| reservationToCancel := reservationId; showCancelModal := true |}.

(** [confirmCancel]: the argument of [cancelReservation.mutate], if it is
    called.  A number is truthy when it is not zero. *)
Definition confirmCancel (st : State) : option Z :=
  match reservationToCancel st with
  | Some reservationId => if reservationId =? 0 then None else Some reservationId
  | None => None
  end.

(** [onSuccess] of the mutation. *)
Definition onSuccess (st : State) : State :=
  {| reservationToCancel := None; showCancelModal := false |}.

(** A click on an action of a slot card, as far as this dialog is
    concerned: Reserve opens another modal. *)
Definition click (a : Action) (st : State) : State :=
  match a with
  | CANCEL reservationId => handleCancelReservation reservationId st
  | RESERVE => st
  end.

End CancelDialog.

(** ** Pagination of the slot view ([ParkingSlots.tsx]) *)

Module Pagination.

(** A [<Pagination.Item>]: its number and its [active] property. *)
Record Item : Type := mkItem {
  number : Z;
  active : bool
}.

(** The [for] loop that fills [paginationItems]: [number] runs from 1 while
    [number <= spotsData.total_pages]. *)
Definition paginationItems (total_pages currentPage : Z) : list Item :=
  map (fun k : nat =>
         let number := Z.of_nat k in
         {| number := number; active := number =? currentPage |})
      (seq 1 (Z.to_nat total_pages)).

(** The controls of the [<Pagination>] element. *)
Inductive Control : Type :=
| First
| Prev
| PageItem (number : Z)
| Next
| Last.

(** The element is rendered when [spotsData.total_pages > 1], with the items
    of [paginationItems] between Prev and Next. *)
Definition controls (total_pages currentPage : Z) : list Control :=
  if 1 <? total_pages then
    [First; Prev] ++
    map (fun item => PageItem (number item)) (paginationItems total_pages currentPage) ++
    [Next; Last]
  else [].

(** The [disabled] property of a control. *)
Definition disabled (total_pages currentPage : Z) (c : Control) : bool :=
  match c with
  | First | Prev => currentPage =? 1
  | Next | Last => currentPage =? total_pages
  | PageItem _ => false
  end.

(** The page its [onClick] passes to [handlePageChange], which stores it. *)
Definition target (total_pages currentPage : Z) (c : Control) : Z :=
  match c with
  | First => 1
  | Prev => currentPage - 1
  | PageItem number => number
  | Next => currentPage + 1
  | Last => total_pages
  end.

(** A click on a control: its [onClick] runs, wired whether or not the
    control is marked disabled, and [handlePageChange] stores the page. *)
Definition click (total_pages : Z) (currentPage : Z) (c : Control) : Z :=
  target total_pages currentPage c.

End Pagination.

(** ** The two time pickers of the reservation modal ([ParkingSlots.tsx]) *)

Module TimeForm.

(** [startTime], [endTime] ([Date | null]), [timeError], [startTimeError]. *)
Record State : Type := mkState {
  startTime : option Date;
  endTime : option Date;
  timeError : string;
  startTimeError : string
}.

(** [a && b && a >= b] on two [Date | null]: an object is truthy. *)
Definition notBefore (a b : option Date) : bool :=
  match a, b with
  | Some x, Some y => JsDate.ge x y
  | _, _ => false
  end.

(** [handleStartTimeChange]; [now] is the [new Date()] it reads. *)
Definition handleStartTimeChange (now : Date) (newValue : option Date) (st : State) : State :=
  {| startTime := newValue;
     endTime := endTime st;
     timeError :=
       if notBefore newValue (endTime st) then "End time must be after start time" else "";
     startTimeError :=
       match newValue with
       | Some v =>
           if JsDate.le v now then "Start time must be in the future" else ""
       | None => startTimeError st
       end |}.

(** [handleEndTimeChange] *)
Definition handleEndTimeChange (newValue : option Date) (st : State) : State :=
  {| startTime := startTime st;
     endTime := newValue;
     timeError :=
       if notBefore (startTime st) newValue then "End time must be after start time" else "";
     startTimeError := startTimeError st |}.

(** [disabled={!!timeError || !!startTimeError}] of the Reserve button: a
    string is truthy when it is not empty. *)
Definition submitDisabled (st : State) : bool :=
  negb (String.eqb (timeError st) "") || negb (String.eqb (startTimeError st) "").

(** [date.toISOString()] throws a RangeError on the Invalid Date. *)
Definition toISOString (date : Date) : Completion Z :=
  match date with
  | Some t => Normal t
  | None => Throw (Error "Invalid time value")
  end.

(** [handleReservationSubmit], as far as the four fields go.  It returns at
    once unless a spot is selected and both pickers hold a date; the request
    is built and awaited inside [try], whose [catch] block only logs; [post]
    is the completion of [axios.post], with [response.status] when it
    returns.  On status 201 the two pickers are set to two readings of the
    clock, [now1] and [now2], and neither error is touched. *)
Definition handleReservationSubmit (selectedSpot : bool) (post : Completion Z)
    (now1 now2 : Date) (st : State) : State :=
  match selectedSpot, startTime st, endTime st with
  | true, Some start, Some end_ =>
      match toISOString start, toISOString end_, post with
      | Normal _, Normal _, Normal response_status =>
          if response_status =? 201 then
            {| startTime := Some now1;
               endTime := Some now2;
               timeError := timeError st;
               startTimeError := startTimeError st |}
          else st
      | _, _, _ => st
      end
  | _, _, _ => st
  end.

(** What changes the four fields: a change of one of the pickers, and the
    form being submitted. *)
Inductive Event : Type :=
| StartChange (now : Date) (newValue : option Date)
| EndChange (newValue : option Date)
| Submit (selectedSpot : bool) (post : Completion Z) (now1 now2 : Date).

Definition step (st : State) (ev : Event) : State :=
  match ev with
  | StartChange now newValue => handleStartTimeChange now newValue st
  | EndChange newValue => handleEndTimeChange newValue st
  | Submit selectedSpot post now1 now2 =>
      handleReservationSubmit selectedSpot post now1 now2 st
  end.

Definition run (events : list Event) (st : State) : State := fold_left step events st.

Definition isPickerChange (ev : Event) : bool :=
  match ev with
  | StartChange _ _ | EndChange _ => true
  | Submit _ _ _ _ => false
  end.

(** The events that leave [startTimeError] alone: a change of the end
    picker, the start picker being cleared, and a submission. *)
Definition keepsStartError (ev : Event) : bool :=
  match ev with
  | EndChange _ => true
  | StartChange _ None => true
  | StartChange _ (Some _) => false
  | Submit _ _ _ _ => true
  end.

End TimeForm.

(** ** Optimistic updates of the admin page ([AdminReservationsPage.tsx]) *)

(** The [prev.map] of [onMutate] and [onError]: the reservations with the
    given id get the status [s]. *)
Definition setStatusOf (reservationId : Z) (s : string) (prev : list Reservation)
  : list Reservation :=
  map (fun reservation =>
         if id reservation =? reservationId then with_status reservation s
         else reservation)
      prev.

(** [confirmMutation] and [declineMutation]: the state update made before
    the request is sent, and the one made when the request fails. *)
Definition confirm_onMutate (reservationId : Z) := setStatusOf reservationId "CONFIRMED".
Definition confirm_onError (reservationId : Z) := setStatusOf reservationId "PENDING".
Definition decline_onMutate (reservationId : Z) := setStatusOf reservationId "CANCELLED".
Definition decline_onError (reservationId : Z) := setStatusOf reservationId "PENDING".

(** The state update a button of a card starts. *)
Definition onMutate (a : AdminAction) : list Reservation -> list Reservation :=
  match a with
  | CONFIRM reservationId => confirm_onMutate reservationId
  | DECLINE reservationId => decline_onMutate reservationId
  end.

Definition onError (a : AdminAction) : list Reservation -> list Reservation :=
  match a with
  | CONFIRM reservationId => confirm_onError reservationId
  | DECLINE reservationId => decline_onError reservationId
  end.

(** The reservation a button acts on. *)
Definition targetId (a : AdminAction) : Z :=
  match a with
  | CONFIRM reservationId | DECLINE reservationId => reservationId
  end.

(** ** The tabs of the admin page *)

(** The [filter] of [filterReservationsByStatus] for a value of
    [activeTab]; the [default] case keeps everything. *)
Definition inTab (activeTab : string) (now : Date) (r : Reservation) : bool :=
  if String.eqb activeTab "pending" then String.eqb (status r) "PENDING"
  else if String.eqb activeTab "confirmed" then
    String.eqb (status r) "CONFIRMED" && JsDate.gt (end_time r) now
  else if String.eqb activeTab "completed" then
    String.eqb (status r) "COMPLETED" ||
    (String.eqb (status r) "CONFIRMED" && JsDate.le (end_time r) now)
  else if String.eqb activeTab "cancelled" then String.eqb (status r) "CANCELLED"
  else if String.eqb activeTab "expired" then String.eqb (status r) "EXPIRED"
  else true.

(** The event keys of the five [<Tab>] elements. *)
Definition tabKeys : list string :=
  ["pending"; "confirmed"; "completed"; "cancelled"; "expired"].

(** The status a tab is named after. *)
Definition tabStatus (activeTab : string) : string :=
  if String.eqb activeTab "pending" then "PENDING"
  else if String.eqb activeTab "confirmed" then "CONFIRMED"
  else if String.eqb activeTab "completed" then "COMPLETED"
  else if String.eqb activeTab "cancelled" then "CANCELLED"
  else if String.eqb activeTab "expired" then "EXPIRED"
  else "".

Section SortByCreation.

(** [new Date(s)] on the [created_at] string of a reservation. *)
Variable parseDate : string -> Date.







End SortByCreation.

(** ** Loading the pages of the reservation list *)

(** [interface PaginatedResponse] *)
Record PaginatedResponse : Type := mkPaginatedResponse {
  count : Z;
  next : option string;
  previous : option string;
  results : list Reservation
}.

(** Truthiness of a [string | null]. *)
Definition truthyString (s : option string) : bool :=
  match s with
  | Some s' => negb (String.eqb s' "")
  | None => false
  end.

(** The [while (nextUrl)] loop of [loadAllReservations]: [get] is
    [axios.get] on a page URL, a failing request ends the loop ([break]).
    [None] when the fuel runs out before the loop ends. *)
Fixpoint loadMore (fuel : nat) (get : string -> Completion PaginatedResponse)
  (currentReservations : list Reservation) (nextUrl : option string)
  : option (list Reservation) :=
  match fuel with
  | O => None
  | S fuel' =>
      match nextUrl with
      | Some url =>
          if String.eqb url "" then Some currentReservations
          else match get url with
               | Normal data =>
                   loadMore fuel' get (currentReservations ++ results data) (next data)
               | Throw _ => Some currentReservations
               end
      | None => Some currentReservations
      end
  end.

(** The state the effect writes. *)
Record ListState : Type := mkListState {
  allReservations : list Reservation;
  isLoadingMore : bool
}.

(** [loadAllReservations]: nothing happens without [reservationsData];
    otherwise the pages are collected and stored. *)
Definition loadAllReservations (fuel : nat) (get : string -> Completion PaginatedResponse)
  (reservationsData : option PaginatedResponse) (st : ListState) : option ListState :=
  match reservationsData with
  | None => Some st
  | Some data =>
      match loadMore fuel get (results data) (next data) with
      | Some currentReservations =>
          Some {| allReservations := currentReservations; isLoadingMore := false |}
      | None => None
      end
  end.

(** The pages the loop visits from [nextUrl]: it ends at a falsy link
    ([failed = false]) or at a request that fails ([failed = true]). *)
Inductive Pages (get : string -> Completion PaginatedResponse)
  : option string -> list PaginatedResponse -> bool -> Prop :=
| pages_end nextUrl :
    truthyString nextUrl = false -> Pages get nextUrl [] false
| pages_fail url e :
    url <> "" -> get url = Throw e -> Pages get (Some url) [] true
| pages_next url data rest failed :
    url <> "" -> get url = Normal data ->
    Pages get (next data) rest failed ->
    Pages get (Some url) (data :: rest) failed.

(** ** The rest of the authentication context ([contexts/AuthContext.tsx]) *)

Module Session.
Import Auth.

(** [try { body } catch (error) { handler }] *)
Definition try_catch {A} (body : M A) (handler : JsError -> M A) : M A := fun s =>
  match body s with
  | (Normal v, s1) => (Normal v, s1)
  | (Throw e, s1) => handler e s1
  end.

Definition localStorage_getItem (key : string) : M (option string) := fun s =>
  (Normal (localStorage s !! key), s).

(** The six statements that end a session; they open the [catch] blocks of
    [login], [register] and [initializeAuth]. *)
Definition clearSession : M unit :=
  localStorage_removeItem "access_token";;
  localStorage_removeItem "refresh_token";;
  localStorage_removeItem "user";;
  setToken None;;
  setUser None;;
  set_axios_Authorization None.

(** [isAuthenticated: !!token] and [isAdmin: user?.role === 'ADMIN'] of the
    context value. *)
Definition isAuthenticated (s : AuthState) : bool := truthyString (token s).

Definition isAdmin (s : AuthState) : bool :=
  match user s with
  | Some u => String.eqb (role u) "ADMIN"
  | None => false
  end.

(** A page load: the React state and the axios defaults start afresh,
    [localStorage] is what the browser kept. *)
Definition reload (s : AuthState) : AuthState :=
  {| user := None; token := None; loading := true;
     localStorage := localStorage s; axios_Authorization := None |}.

(** [RegisterData] of [types/auth.ts]. *)
Record RegisterData : Type := mkRegisterData {
  reg_email : string;
  reg_password : string;
  reg_password2 : string;
  reg_first_name : string;
  reg_last_name : string;
  reg_notification_preference : string
}.

Section Context.

Variable JSON_stringify : User -> string.

(** [JSON.parse] on the stored user entry: it throws on a text that is not
    JSON; the text [null] parses to null, [None] here; any other value is
    taken for a user object, as the type [User | null] of the state has
    it. *)
Variable JSON_parse : string -> Completion (option User).

Variable server : Server.

(** The [else] branch of [initializeAuth]: the stored entries stay. *)
Definition noStoredSession : M unit :=
  setToken None;;
  setUser None;;
  set_axios_Authorization None.

(** [initializeAuth], the effect run once when the provider mounts.  The
    test [storedToken && storedUser] holds for two strings that are not
    empty. *)
Definition initializeAuth : M unit :=
  try_catch_finally
    (storedToken ← localStorage_getItem "access_token";
     storedUser ← localStorage_getItem "user";
     match storedToken, storedUser with
     | Some t, Some u =>
         if negb (String.eqb t "") && negb (String.eqb u "") then
           try_catch
             (setToken (Some t);;
              parsed ← await (JSON_parse u);
              setUser parsed;;
              set_axios_Authorization (Some ("Bearer " +:+ t)))
             (fun _ => clearSession)
         else noStoredSession
     | _, _ => noStoredSession
     end)
    (fun _ => clearSession)
    (setLoading false).

(** [updateUser] *)
Definition updateUser (userData : User) : M unit :=
  setUser (Some userData);;
  localStorage_setItem "user" (JSON_stringify userData).

(** [POST /api/register/] *)
Variable post_register : RegisterData -> Completion unit.

(** [error.response.data?.detail || error.response.data?.message] of a
    rejected request: [None] when both are falsy. *)
Variable response_data_message : JsError -> option string.

Definition register_catch (error : JsError) : M unit :=
  clearSession;;
  when (isAxiosError error)
       (if response_status_is error 400 then
          throw (Error (default "Registration failed. Please check your input."
                                (response_data_message error)))
        else throw (Error "Registration failed. Please try again."));;
  throw error.

(** [register] *)
Definition register (data : RegisterData) : M unit :=
  setLoading true;;
  try_catch_finally
    (await (post_register data);;
     login JSON_stringify server (reg_email data) (reg_password data) false)
    register_catch
    (setLoading false).

End Context.

End Session.

(** ** The login form ([components/auth/LoginForm.tsx]) *)

Module LoginForm.
Import Auth.

(** The error of the request that is rejected first, if one is: the token
    request, or else the current-user request sent with the token. *)
Definition rejection (server : Server) (email password : string) : option JsError :=
  match post_token server email password with
  | Throw e => Some e
  | Normal r =>
      match get_users_me server ("Bearer " +:+ access r) with
      | Throw e => Some e
      | Normal _ => None
      end
  end.

(** What [handleSubmit] does besides logging in: the route it navigates to,
    or the text it passes to [setStatus]. *)
Inductive Outcome : Type :=
| Navigated (to : string)
| Failed (formStatus : string).

(** [handleSubmit]; [pathname] is [location.pathname], from which the form
    takes [isAdmin]. *)
Definition handleSubmit (JSON_stringify : User -> string) (server : Server)
  (pathname : string) (email password : string) (s : AuthState)
  : Outcome * AuthState :=
  let isAdmin := String.eqb pathname "/admin/login" in
  match login JSON_stringify server email password isAdmin s with
  | (Normal _, s') =>
      (Navigated (if isAdmin then "/admin/dashboard" else "/dashboard"), s')
  | (Throw error, s') =>
      (Failed (if instanceofError error then message error else "An error occurred"), s')
  end.

End LoginForm.

(** ** Sample data *)

Module Sample.

Definition alice : User :=
  {| user_id := 7; email := "alice@example.com"; role := "USER";
     first_name := "Alice"; last_name := "A"; notification_preference := "ALL";
     user_created_at := "2025-01-01T00:00:00Z" |}.

Definition bob : User :=
  {| user_id := 8; email := "bob@example.com"; role := "USER";
     first_name := "Bob"; last_name := "B"; notification_preference := "NONE";
     user_created_at := "2025-01-02T00:00:00Z" |}.

Definition root : User :=
  {| user_id := 1; email := "root@example.com"; role := "ADMIN";
     first_name := "Root"; last_name := "R"; notification_preference := "ALL";
     user_created_at := "2025-01-01T00:00:00Z" |}.

(** Alice's reservation of slot A1 from 1000 to 2000, in a given status. *)
Definition booking (st : string) : CurrentReservation :=
  {| cr_id := 42; cr_status := st; cr_start_time := Some 1000;
     cr_end_time := Some 2000; cr_user := 7 |}.

Definition slotA1 (occupied : bool) (r : option CurrentReservation) : ParkingSpot :=
  {| spot_id := 3; slot_number := "A1"; is_occupied := occupied; is_reserved := false;
     spot_location := 1; current_reservation := r |}.


(** The same reservation in the list of the admin page. *)
Definition adminRow (st : string) : Reservation :=
  {| id := 42; user_email_nested := "alice@example.com";
     user_email := "alice@example.com"; parking_slot := 3;
     location_name := "Main"; res_slot_number := "A1";
     start_time := Some 1000; end_time := Some 2000;
     vehicle_plate := "ABC123"; status := st;
     created_at := "2025-01-03T00:00:00Z"; can_be_cancelled := true |}.

(** A backend that rejects the credentials with status 401. *)
Definition rejecting : Auth.Server :=
  {| Auth.post_token := fun _ _ =>
       Throw {| isAxiosError := true; instanceofError := true;
                response_status := Some 401;
                message := "Request failed with status code 401" |};
     Auth.get_users_me := fun _ => Normal bob |}.

(** A backend that accepts the credentials and knows the caller as Bob,
    whose role is USER. *)
Definition accepting : Auth.Server :=
  {| Auth.post_token := fun _ _ =>
       Normal {| Auth.access := "acc"; Auth.refresh := "ref" |};
     Auth.get_users_me := fun _ => Normal bob |}.

(** A stand-in for [JSON.stringify]. *)
Definition stringify (u : User) : string := "{email:" +:+ email u +:+ "}".

(** The state of a browser in which Alice is logged in. *)
Definition loggedIn : Auth.AuthState :=
  {| Auth.user := Some alice; Auth.token := Some "old";
     Auth.loading := false;
     Auth.localStorage :=
       <["access_token" := "old"]> (<["refresh_token" := "oldref"]>
         (<["user" := stringify alice]> ∅));
     Auth.axios_Authorization := Some "Bearer old" |}.

End Sample.

(** ** More sample data *)

Module Scenario.


Definition row (rid : Z) (st created : string) (ending : Date) : Reservation :=
  {| id := rid; user_email_nested := "alice@example.com";
     user_email := "alice@example.com"; parking_slot := 3;
     location_name := "Main"; res_slot_number := "A1";
     start_time := Some 1000; end_time := ending;
     vehicle_plate := "ABC123"; status := st;
     created_at := created; can_be_cancelled := true |}.

Definition oldest : Reservation := row 1 "PENDING" "2025-01-01T00:00:00Z" (Some 2000).
Definition middle : Reservation := row 2 "CONFIRMED" "2025-01-02T00:00:00Z" (Some 2000).
Definition newest : Reservation := row 3 "PENDING" "2025-01-03T00:00:00Z" (Some 5000).

(** A reservation list in three pages; the link of the second page leads
    to a request that fails, the page [loop] links to itself. *)
Definition page1 : PaginatedResponse :=
  {| count := 3; next := Some "/api/reservations/?page=2"; previous := None;
     results := [oldest] |}.

Definition page2 : PaginatedResponse :=
  {| count := 3; next := Some "/api/reservations/?page=3";
     previous := Some "/api/reservations/"; results := [middle] |}.

Definition loopPage : PaginatedResponse :=
  {| count := 1; next := Some "loop"; previous := None; results := [newest] |}.

Definition get (url : string) : Completion PaginatedResponse :=
  if String.eqb url "/api/reservations/?page=2" then Normal page2
  else if String.eqb url "loop" then Normal loopPage
  else Throw {| isAxiosError := true; instanceofError := true;
                response_status := Some 500;
                message := "Request failed with status code 500" |}.

(** A backend that knows the caller as the admin. *)
Definition adminServer : Auth.Server :=
  {| Auth.post_token := fun _ _ =>
       Normal {| Auth.access := "acc"; Auth.refresh := "ref" |};
     Auth.get_users_me := fun _ => Normal Sample.root |}.

(** A stand-in for [JSON.parse] that reads [null] and reads back what
    [Sample.stringify] wrote for the three sample users. *)
Definition parse (s : string) : Completion (option User) :=
  if String.eqb s "null" then Normal None
  else if String.eqb s (Sample.stringify Sample.alice) then Normal (Some Sample.alice)
  else if String.eqb s (Sample.stringify Sample.bob) then Normal (Some Sample.bob)
  else if String.eqb s (Sample.stringify Sample.root) then Normal (Some Sample.root)
  else Throw (Error "Unexpected token").

(** A page load with a token and the text [null] as the user entry. *)
Definition nullUserStored : Auth.AuthState :=
  {| Auth.user := None; Auth.token := None; Auth.loading := true;
     Auth.localStorage := <["user" := "null"]> (<["access_token" := "acc"]> ∅);
     Auth.axios_Authorization := None |}.

Definition newAccount : Session.RegisterData :=
  {| Session.reg_email := "bob@example.com"; Session.reg_password := "secret12";
     Session.reg_password2 := "secret12"; Session.reg_first_name := "Bob";
     Session.reg_last_name := "B"; Session.reg_notification_preference := "NONE" |}.

(** The registration endpoint, accepting and refusing. *)
Definition created (_ : Session.RegisterData) : Completion unit := Normal tt.

Definition taken (_ : Session.RegisterData) : Completion unit :=
  Throw {| isAxiosError := true; instanceofError := true;
           response_status := Some 400;
           message := "Request failed with status code 400" |}.

Definition noDetail (_ : JsError) : option string := None.

(** The reservation modal with a start time in the past picked. *)
Definition lateStart : TimeForm.State :=
  {| TimeForm.startTime := Some (Some 500); TimeForm.endTime := Some (Some 2000);
     TimeForm.timeError := "";
     TimeForm.startTimeError := "Start time must be in the future" |}.

End Scenario.

(** * Properties *)

(** ** Comparisons of dates *)

Module JsDateFacts.
Import JsDate.

Lemma lt_spec a b : lt a b = true <-> exists x y, a = Some x /\ b = Some y /\ x < y.
Proof.
  destruct a as [x|], b as [y|]; simpl; split;
    try (intros H; discriminate H);
    try (intros (x' & y' & Ha & Hb & _); discriminate).
  - intros H. exists x, y. repeat split. now apply Z.ltb_lt.
  - intros (x' & y' & [= <-] & [= <-] & H). now apply Z.ltb_lt.
Qed.

Lemma le_spec a b : le a b = true <-> exists x y, a = Some x /\ b = Some y /\ x <= y.
Proof.
  destruct a as [x|], b as [y|]; simpl; split;
    try (intros H; discriminate H);
    try (intros (x' & y' & Ha & Hb & _); discriminate).
  - intros H. exists x, y. repeat split. now apply Z.leb_le.
  - intros (x' & y' & [= <-] & [= <-] & H). now apply Z.leb_le.
Qed.

Lemma lt_le a b : lt a b = true -> le a b = true.
Proof.
  rewrite lt_spec, le_spec. intros (x & y & -> & -> & H).
  exists x, y. repeat split. lia.
Qed.

Lemma lt_not_ge a b : lt a b = true -> ge a b = false.
Proof.
  rewrite lt_spec. intros (x & y & -> & -> & H). simpl.
  apply Z.leb_gt. exact H.
Qed.

Lemma lt_trans a b c : lt a b = true -> lt b c = true -> lt a c = true.
Proof.
  rewrite !lt_spec. intros (x & y & -> & -> & H) (y' & z & [= <-] & -> & H').
  exists x, z. repeat split. lia.
Qed.

Lemma le_lt_trans a b c : le a b = true -> lt b c = true -> lt a c = true.
Proof.
  rewrite le_spec, !lt_spec. intros (x & y & -> & -> & H) (y' & z & [= <-] & -> & H').
  exists x, z. repeat split. lia.
Qed.

Lemma lt_le_trans a b c : lt a b = true -> le b c = true -> lt a c = true.
Proof.
  rewrite le_spec, !lt_spec. intros (x & y & -> & -> & H) (y' & z & [= <-] & -> & H').
  exists x, z. repeat split. lia.
Qed.

Lemma lt_asym a b : lt a b = true -> lt b a = false.
Proof.
  rewrite lt_spec. intros (x & y & -> & -> & H). simpl. apply Z.ltb_ge. lia.
Qed.

Lemma le_lt_false a b : le a b = true -> lt b a = false.
Proof.
  rewrite le_spec. intros (x & y & -> & -> & H). simpl. apply Z.ltb_ge. exact H.
Qed.

End JsDateFacts.

(** ** The slot view *)

Lemma eqb_PENDING_CONFIRMED s : s = "PENDING" -> String.eqb s "CONFIRMED" = false.
Proof. intros ->. reflexivity. Qed.

Lemma eqb_CONFIRMED_PENDING s : s = "CONFIRMED" -> String.eqb s "PENDING" = false.
Proof. intros ->. reflexivity. Qed.

(** [getSlotStatus] written with the guards of its [return]s. *)
Lemma getSlotStatus_guards now viewer spot :
  getSlotStatus now viewer spot =
  match current_reservation spot with
  | Some r =>
      if guard_pending_owner viewer r then status_Pending (cr_id r)
      else if guard_in_use now r then status_Occupied
      else if guard_upcoming now r then status_Confirmed
      else occupancy_fallback spot
  | None => occupancy_fallback spot
  end.
Proof. reflexivity. Qed.

(** Without a matching guard the result is read off the occupancy flag. *)
Lemma getSlotStatus_fallback now viewer spot :
  reservation_rule_matches now viewer spot = false ->
  getSlotStatus now viewer spot = occupancy_fallback spot.
Proof.
  rewrite getSlotStatus_guards. unfold reservation_rule_matches.
  destruct (current_reservation spot) as [r|]; [|reflexivity].
  intros H. apply orb_false_elim in H as [H H3]. apply orb_false_elim in H as [H1 H2].
  now rewrite H1, H2, H3.
Qed.

(** The four objects [getSlotStatus] can return. *)
Lemma getSlotStatus_range now viewer spot :
  (exists rid, getSlotStatus now viewer spot = status_Pending rid) \/
  getSlotStatus now viewer spot = status_Occupied \/
  getSlotStatus now viewer spot = status_Confirmed \/
  getSlotStatus now viewer spot = status_Available.
Proof.
  rewrite getSlotStatus_guards. unfold occupancy_fallback.
  destruct (current_reservation spot) as [r|].
  - destruct (guard_pending_owner viewer r); [left; eauto|].
    destruct (guard_in_use now r); [auto|].
    destruct (guard_upcoming now r); [auto|].
    destruct (is_occupied spot); auto.
  - destruct (is_occupied spot); auto.
Qed.

Lemma evaluate_Pending now viewer spot rid :
  getSlotStatus now viewer spot = status_Pending rid ->
  evaluate now viewer spot = (Some PENDING, [CANCEL (Some rid)]).
Proof. unfold evaluate. now intros ->. Qed.

Lemma evaluate_Occupied now viewer spot :
  getSlotStatus now viewer spot = status_Occupied ->
  evaluate now viewer spot = (Some OCCUPIED, []).
Proof. unfold evaluate. now intros ->. Qed.

Lemma evaluate_Confirmed now viewer spot :
  getSlotStatus now viewer spot = status_Confirmed ->
  evaluate now viewer spot = (Some CONFIRMED, []).
Proof. unfold evaluate. now intros ->. Qed.

Lemma evaluate_Available now viewer spot :
  getSlotStatus now viewer spot = status_Available ->
  evaluate now viewer spot = (Some AVAILABLE, [RESERVE]).
Proof. unfold evaluate. now intros ->. Qed.

(** C4: a CONFIRMED reservation evaluated strictly between its start and
    its end gives the label OCCUPIED and no action (neither Reserve nor
    Cancel), whoever the viewer is. *)
Theorem confirmed_in_use_is_occupied now viewer spot r :
  current_reservation spot = Some r ->
  cr_status r = "CONFIRMED" ->
  JsDate.lt (cr_start_time r) now = true ->
  JsDate.lt now (cr_end_time r) = true ->
  getSlotStatus now viewer spot = status_Occupied /\
  evaluate now viewer spot = (Some OCCUPIED, []).
Proof.
  intros Hr Hs Hstart Hend.
  assert (H : getSlotStatus now viewer spot = status_Occupied).
  { unfold getSlotStatus. rewrite Hr. cbv zeta.
    rewrite (eqb_CONFIRMED_PENDING _ Hs), Hs. simpl.
    unfold JsDate.ge.
    now rewrite (JsDateFacts.lt_le _ _ Hstart), (JsDateFacts.lt_le _ _ Hend). }
  split; [exact H | now apply evaluate_Occupied].
Qed.

(** The first guard: status and owner only. *)
Lemma getSlotStatus_pending_owner now u spot r :
  current_reservation spot = Some r ->
  cr_status r = "PENDING" ->
  cr_user r = user_id u ->
  getSlotStatus now (Some u) spot = status_Pending (cr_id r).
Proof.
  intros Hr Hs Hu. unfold getSlotStatus. rewrite Hr. cbv zeta.
  rewrite Hs. simpl. rewrite Hu, Z.eqb_refl. reflexivity.
Qed.

(** C6: the owner of a PENDING reservation gets the label PENDING and
    exactly the Cancel action for that reservation, at any time: the guard
    is the first one tested and does not read the clock. *)
Theorem pending_owner_can_cancel now u spot r :
  current_reservation spot = Some r ->
  cr_status r = "PENDING" ->
  cr_user r = user_id u ->
  getSlotStatus now (Some u) spot = status_Pending (cr_id r) /\
  evaluate now (Some u) spot = (Some PENDING, [CANCEL (Some (cr_id r))]).
Proof.
  intros Hr Hs Hu.
  pose proof (getSlotStatus_pending_owner now u spot r Hr Hs Hu) as H.
  split; [exact H | now apply evaluate_Pending].
Qed.

(** C7: a slot without a current reservation whose occupancy flag is unset
    is AVAILABLE with exactly the Reserve action; with the flag set, and
    none of the earlier guards matching, it is OCCUPIED with no action. *)
Theorem no_reservation_follows_occupancy_flag now viewer spot :
  (current_reservation spot = None -> is_occupied spot = false ->
   getSlotStatus now viewer spot = status_Available /\
   evaluate now viewer spot = (Some AVAILABLE, [RESERVE])) /\
  (is_occupied spot = true -> reservation_rule_matches now viewer spot = false ->
   getSlotStatus now viewer spot = status_Occupied /\
   evaluate now viewer spot = (Some OCCUPIED, [])).
Proof.
  split.
  - intros Hr Hocc.
    assert (H : getSlotStatus now viewer spot = status_Available).
    { unfold getSlotStatus, occupancy_fallback. now rewrite Hr, Hocc. }
    split; [exact H | now apply evaluate_Available].
  - intros Hocc Hnone.
    assert (H : getSlotStatus now viewer spot = status_Occupied).
    { rewrite (getSlotStatus_fallback _ _ _ Hnone).
      unfold occupancy_fallback. now rewrite Hocc. }
    split; [exact H | now apply evaluate_Occupied].
Qed.

(** ** The admin page: time-driven update and badge *)

Lemma autoUpdate_PENDING now reservation :
  status reservation = "PENDING" ->
  autoUpdate now reservation =
  if JsDate.le (end_time reservation) now
  then with_status reservation "EXPIRED" else reservation.
Proof. unfold autoUpdate. intros ->. simpl. now destruct (JsDate.le _ _). Qed.

Lemma autoUpdate_CONFIRMED now reservation :
  status reservation = "CONFIRMED" ->
  autoUpdate now reservation =
  if JsDate.le (end_time reservation) now
  then with_status reservation "COMPLETED" else reservation.
Proof. unfold autoUpdate. intros ->. simpl. now destruct (JsDate.le _ _). Qed.

Lemma autoUpdate_other now reservation :
  status reservation <> "PENDING" ->
  status reservation <> "CONFIRMED" ->
  autoUpdate now reservation = reservation.
Proof.
  unfold autoUpdate. intros H1 H2.
  apply String.eqb_neq in H1, H2. now rewrite H1, H2.
Qed.

Lemma isTerminal_spec s :
  isTerminal s = true <-> s = "CANCELLED" \/ s = "COMPLETED" \/ s = "EXPIRED".
Proof.
  unfold isTerminal. rewrite !orb_true_iff, !String.eqb_eq. tauto.
Qed.

Lemma isTerminal_not_active s :
  isTerminal s = true -> s <> "PENDING" /\ s <> "CONFIRMED".
Proof.
  rewrite isTerminal_spec. intros [-> | [-> | ->]]; split; discriminate.
Qed.

(** The badge of a CONFIRMED reservation whose end is not in the future:
    COMPLETED, and the card has no button. *)
Lemma getStatusBadge_completed now reservation :
  status reservation = "CONFIRMED" ->
  JsDate.le (end_time reservation) now = true ->
  badgeLabel (getStatusBadge now reservation) = Some COMPLETED /\
  cardActions reservation = [].
Proof.
  intros Hs He. unfold getStatusBadge, cardActions. now rewrite Hs, He.
Qed.

(** The first guard for any viewer who owns the reservation. *)
Lemma getSlotStatus_pending_viewer now viewer spot r :
  current_reservation spot = Some r ->
  cr_status r = "PENDING" ->
  viewer_owns viewer r = true ->
  getSlotStatus now viewer spot = status_Pending (cr_id r).
Proof.
  intros Hr Hs Ho. destruct viewer as [u|]; [|discriminate Ho].
  apply getSlotStatus_pending_owner; [exact Hr | exact Hs |].
  now apply Z.eqb_eq.
Qed.

(** A PENDING reservation of somebody else is not looked at any further. *)
Lemma getSlotStatus_pending_other now viewer spot r :
  current_reservation spot = Some r ->
  cr_status r = "PENDING" ->
  viewer_owns viewer r = false ->
  getSlotStatus now viewer spot = occupancy_fallback spot.
Proof.
  intros Hr Hs Ho. apply getSlotStatus_fallback.
  unfold reservation_rule_matches, guard_pending_owner, guard_in_use, guard_upcoming.
  now rewrite Hr, Ho, (eqb_PENDING_CONFIRMED _ Hs), andb_false_r.
Qed.

(** C1, as the code has it: once [now] is past the end of a PENDING
    reservation, the slot view shows EXPIRED to no viewer.  The owner of
    the reservation still gets PENDING with exactly the Cancel action, as
    that guard comes first and does not read the clock; every other viewer
    (another user, an admin, nobody logged in) gets what the occupancy flag
    says: OCCUPIED without action when it is set, AVAILABLE with Reserve
    when it is not.  EXPIRED comes from the update step of the admin page
    only, which turns the status into EXPIRED (shown with the EXPIRED badge
    and without buttons) whoever is logged in. *)
Theorem pending_past_end now viewer spot r reservation :
  current_reservation spot = Some r ->
  cr_status r = "PENDING" ->
  JsDate.gt now (cr_end_time r) = true ->
  status reservation = "PENDING" ->
  JsDate.gt now (end_time reservation) = true ->
  (viewer_owns viewer r = true ->
   getSlotStatus now viewer spot = status_Pending (cr_id r) /\
   evaluate now viewer spot = (Some PENDING, [CANCEL (Some (cr_id r))])) /\
  (viewer_owns viewer r = false ->
   getSlotStatus now viewer spot = occupancy_fallback spot /\
   evaluate now viewer spot =
     if is_occupied spot then (Some OCCUPIED, []) else (Some AVAILABLE, [RESERVE])) /\
  fst (evaluate now viewer spot) <> Some EXPIRED /\
  (status (autoUpdate now reservation) = "EXPIRED" /\
   badgeLabel (getStatusBadge now (autoUpdate now reservation)) = Some EXPIRED /\
   cardActions (autoUpdate now reservation) = []).
Proof.
  intros Hr Hs _ Hs' Hend.
  assert (Hown : viewer_owns viewer r = true ->
                 getSlotStatus now viewer spot = status_Pending (cr_id r) /\
                 evaluate now viewer spot = (Some PENDING, [CANCEL (Some (cr_id r))])).
  { intros Ho. pose proof (getSlotStatus_pending_viewer now viewer spot r Hr Hs Ho) as H.
    split; [exact H | now apply evaluate_Pending]. }
  assert (Hother : viewer_owns viewer r = false ->
                   getSlotStatus now viewer spot = occupancy_fallback spot /\
                   evaluate now viewer spot =
                     if is_occupied spot then (Some OCCUPIED, [])
                     else (Some AVAILABLE, [RESERVE])).
  { intros Ho. pose proof (getSlotStatus_pending_other now viewer spot r Hr Hs Ho) as H.
    split; [exact H|]. unfold evaluate. rewrite H. unfold occupancy_fallback.
    now destruct (is_occupied spot). }
  split; [exact Hown|]. split; [exact Hother|]. split.
  - destruct (viewer_owns viewer r).
    + destruct (Hown eq_refl) as [_ ->]. discriminate.
    + destruct (Hother eq_refl) as [_ ->]. destruct (is_occupied spot); discriminate.
  - rewrite (autoUpdate_PENDING _ _ Hs').
    unfold JsDate.gt in Hend. rewrite (JsDateFacts.lt_le _ _ Hend).
    repeat split.
Qed.

(** At 3000 the sample reservation (PENDING, ended at 2000) is not shown as
    EXPIRED: its owner sees PENDING with the Cancel action, anybody else an
    AVAILABLE slot with the Reserve action. *)
Lemma pending_past_end_not_expired :
  let spot := Sample.slotA1 false (Some (Sample.booking "PENDING")) in
  cr_status (Sample.booking "PENDING") = "PENDING" /\
  JsDate.gt (Some 3000) (cr_end_time (Sample.booking "PENDING")) = true /\
  evaluate (Some 3000) (Some Sample.alice) spot = (Some PENDING, [CANCEL (Some 42)]) /\
  evaluate (Some 3000) (Some Sample.bob) spot = (Some AVAILABLE, [RESERVE]) /\
  evaluate (Some 3000) (Some Sample.root) spot = (Some AVAILABLE, [RESERVE]) /\
  ~ (forall viewer, evaluate (Some 3000) viewer spot = (Some EXPIRED, [])).
Proof.
  cbv zeta. repeat split. intros H. specialize (H (Some Sample.alice)). discriminate H.
Qed.

(** C2 at the sample reservation: CONFIRMED, ended at 2000, evaluated at
    3000.  The slot view shows AVAILABLE and offers Reserve; no input makes
    [getSlotStatus] return the Completed object that [renderParkingSpots]
    tests for, while the admin badge of the same reservation is COMPLETED. *)
Theorem confirmed_past_end_not_completed :
  let spot := Sample.slotA1 false (Some (Sample.booking "CONFIRMED")) in
  JsDate.gt (Some 3000) (cr_end_time (Sample.booking "CONFIRMED")) = true /\
  (forall viewer,
     getSlotStatus (Some 3000) viewer spot = status_Available /\
     evaluate (Some 3000) viewer spot = (Some AVAILABLE, [RESERVE]) /\
     evaluate (Some 3000) viewer spot <> (Some COMPLETED, [])) /\
  badgeLabel (getStatusBadge (Some 3000) (Sample.adminRow "CONFIRMED")) = Some COMPLETED.
Proof.
  cbv zeta. repeat split. discriminate.
Qed.

(** The branch of [renderParkingSpots] for a Completed slot is never taken. *)
Lemma isCompleted_never now viewer spot :
  isCompleted (getSlotStatus now viewer spot) = false.
Proof.
  destruct (getSlotStatus_range now viewer spot) as [[rid ->] | [-> | [-> | ->]]];
    reflexivity.
Qed.

(** ** Monotonicity in time *)

(** When the reservation is still upcoming at the later time, it was
    upcoming, and not in use, at the earlier one. *)
Lemma guard_upcoming_before t1 t2 r :
  JsDate.lt t1 t2 = true ->
  guard_upcoming t2 r = true ->
  guard_upcoming t1 r = true /\ guard_in_use t1 r = false.
Proof.
  unfold guard_upcoming, guard_in_use. intros Ht H.
  apply andb_true_iff in H as [Hs H]. rewrite Hs. cbn [andb].
  pose proof (JsDateFacts.lt_trans _ _ _ Ht H) as H1. rewrite H1.
  split; [reflexivity|].
  now rewrite (JsDateFacts.lt_not_ge _ _ H1).
Qed.


(** Between an earlier and a later time the label moves backward in one
    way only: a slot with a CONFIRMED reservation and the occupancy flag
    unset, shown as CONFIRMED or OCCUPIED before, falls to AVAILABLE once
    no guard matches any more. *)
Lemma backward_move_is_fall_to_available t1 t2 viewer spot :
  JsDate.lt t1 t2 = true ->
  let l1 := slotLabel (getSlotStatus t1 viewer spot) in
  let l2 := slotLabel (getSlotStatus t2 viewer spot) in
  moves_backward l1 l2 = true ->
  l2 = Some AVAILABLE /\ (l1 = Some CONFIRMED \/ l1 = Some OCCUPIED) /\
  is_occupied spot = false /\
  exists r, current_reservation spot = Some r /\ cr_status r = "CONFIRMED" /\
            guard_in_use t2 r = false /\ guard_upcoming t2 r = false.
Proof.
  intros Ht l1 l2. subst l1 l2. rewrite !getSlotStatus_guards.
  destruct (current_reservation spot) as [r|].
  - destruct (guard_pending_owner viewer r); [discriminate|].
    destruct (guard_upcoming t2 r) eqn:Hup2.
    + destruct (guard_upcoming_before t1 t2 r Ht Hup2) as [-> ->].
      destruct (guard_in_use t2 r); discriminate.
    + assert (Hs : guard_in_use t1 r = true \/ guard_upcoming t1 r = true ->
                   cr_status r = "CONFIRMED").
      { unfold guard_in_use, guard_upcoming.
        intros [H | H]; apply andb_true_iff in H as [H _]; now apply String.eqb_eq. }
      unfold occupancy_fallback.
      destruct (guard_in_use t1 r) eqn:H1, (guard_upcoming t1 r) eqn:H1',
        (guard_in_use t2 r) eqn:H2, (is_occupied spot) eqn:Hocc;
        cbn; try discriminate; intros _;
        (split; [reflexivity|]); (split; [auto|]); (split; [reflexivity|]);
        exists r; auto.
  - unfold occupancy_fallback. destruct (is_occupied spot); discriminate.
Qed.

(** With valid dates, no guard matching a CONFIRMED reservation means that
    its end is past. *)
Lemma no_clock_guard_is_past_end (n s e : Z) r :
  cr_status r = "CONFIRMED" ->
  cr_start_time r = Some s -> cr_end_time r = Some e ->
  guard_in_use (Some n) r = false ->
  guard_upcoming (Some n) r = false ->
  JsDate.lt (cr_end_time r) (Some n) = true.
Proof.
  unfold guard_in_use, guard_upcoming. intros -> -> ->. cbn.
  intros H1 H2. apply Z.ltb_ge in H2. apply Z.ltb_lt.
  apply andb_false_iff in H1 as [H1 | H1]; [apply Z.leb_gt in H1; lia|].
  now apply Z.leb_gt in H1.
Qed.

(** Every CONFIRMED reservation on a slot whose occupancy flag is unset
    makes that move: OCCUPIED while it is in use, AVAILABLE when its end is
    past. *)
Lemma in_use_then_available (t1 t2 start end_ : Z) viewer spot r :
  current_reservation spot = Some r ->
  cr_status r = "CONFIRMED" ->
  cr_start_time r = Some start -> cr_end_time r = Some end_ ->
  is_occupied spot = false ->
  start <= t1 <= end_ -> end_ < t2 ->
  slotLabel (getSlotStatus (Some t1) viewer spot) = Some OCCUPIED /\
  slotLabel (getSlotStatus (Some t2) viewer spot) = Some AVAILABLE /\
  moves_backward (slotLabel (getSlotStatus (Some t1) viewer spot))
                 (slotLabel (getSlotStatus (Some t2) viewer spot)) = true.
Proof.
  intros Hr Hs Hstart Hend Hocc H1 H2. rewrite !getSlotStatus_guards, Hr.
  unfold guard_pending_owner, guard_in_use, guard_upcoming, occupancy_fallback.
  rewrite Hs, Hstart, Hend, Hocc.
  change (String.eqb "CONFIRMED" "PENDING") with false.
  change (String.eqb "CONFIRMED" "CONFIRMED") with true.
  cbn [andb]. unfold JsDate.ge, JsDate.le, JsDate.lt.
  destruct (Z.leb_spec start t1); [|lia]. destruct (Z.leb_spec t1 end_); [|lia].
  destruct (Z.leb_spec start t2); [|lia]. destruct (Z.leb_spec t2 end_); [lia|].
  destruct (Z.ltb_spec t2 start); [lia|]. cbn. auto.
Qed.

(** C3 at the sample reservation: CONFIRMED from 1000 to 2000, occupancy
    flag unset.  At 1500 the slot is OCCUPIED, at 3000 it is AVAILABLE
    again, for every viewer: the label has moved back to where the
    progressions start, so that the label does move backward between an
    earlier and a later time. *)
Theorem label_moves_backward_past_end :
  let spot := Sample.slotA1 false (Some (Sample.booking "CONFIRMED")) in
  JsDate.lt (Some 1500) (Some 3000) = true /\
  (forall viewer,
     slotLabel (getSlotStatus (Some 1500) viewer spot) = Some OCCUPIED /\
     slotLabel (getSlotStatus (Some 3000) viewer spot) = Some AVAILABLE /\
     moves_backward (slotLabel (getSlotStatus (Some 1500) viewer spot))
                    (slotLabel (getSlotStatus (Some 3000) viewer spot)) = true) /\
  ~ (forall t1 t2 viewer spot',
       JsDate.lt t1 t2 = true ->
       moves_backward (slotLabel (getSlotStatus t1 viewer spot'))
                      (slotLabel (getSlotStatus t2 viewer spot')) = false).
Proof.
  cbv zeta. split; [reflexivity|]. split; [intros viewer; repeat split|].
  intros H.
  specialize (H (Some 1500) (Some 3000) None
                (Sample.slotA1 false (Some (Sample.booking "CONFIRMED"))) eq_refl).
  discriminate H.
Qed.

(** Past the end of a well-formed interval no guard that reads the clock
    holds any more. *)
Lemma clock_guards_past_end now r :
  JsDate.le (cr_start_time r) (cr_end_time r) = true ->
  JsDate.lt (cr_end_time r) now = true ->
  guard_in_use now r = false /\ guard_upcoming now r = false.
Proof.
  intros Hwf Hpast. unfold guard_in_use, guard_upcoming.
  pose proof (JsDateFacts.lt_asym _ _ (JsDateFacts.le_lt_trans _ _ _ Hwf Hpast)) as ->.
  pose proof (JsDateFacts.lt_not_ge _ _ Hpast) as Hle. unfold JsDate.ge in Hle.
  rewrite Hle, !andb_false_r. split; reflexivity.
Qed.

(** So a CONFIRMED reservation whose end is past leaves the slot to the
    occupancy flag. *)
Lemma getSlotStatus_confirmed_past_end now viewer spot r :
  current_reservation spot = Some r ->
  cr_status r = "CONFIRMED" ->
  JsDate.le (cr_start_time r) (cr_end_time r) = true ->
  JsDate.lt (cr_end_time r) now = true ->
  getSlotStatus now viewer spot = occupancy_fallback spot.
Proof.
  intros Hr Hs Hwf Hpast. apply getSlotStatus_fallback.
  unfold reservation_rule_matches. rewrite Hr.
  destruct (clock_guards_past_end now r Hwf Hpast) as [-> ->].
  unfold guard_pending_owner. now rewrite (eqb_CONFIRMED_PENDING _ Hs).
Qed.

(** And from then on the result does not change any more. *)
Lemma getSlotStatus_stable_past_end t1 t2 viewer spot r :
  current_reservation spot = Some r ->
  JsDate.le (cr_start_time r) (cr_end_time r) = true ->
  JsDate.lt (cr_end_time r) t1 = true ->
  JsDate.lt t1 t2 = true ->
  getSlotStatus t2 viewer spot = getSlotStatus t1 viewer spot.
Proof.
  intros Hr Hwf Hpast Ht. rewrite !getSlotStatus_guards, Hr.
  destruct (clock_guards_past_end t1 r Hwf Hpast) as [-> ->].
  destruct (clock_guards_past_end t2 r Hwf (JsDateFacts.lt_trans _ _ _ Hpast Ht))
    as [-> ->].
  reflexivity.
Qed.

(** ** Malformed input *)



(** ** Terminal statuses under the time-driven update *)

Lemma autoUpdate_terminal now reservation :
  isTerminal (status reservation) = true ->
  autoUpdate now reservation = reservation.
Proof.
  intros H. apply isTerminal_not_active in H as [H1 H2].
  now apply autoUpdate_other.
Qed.





(** The sample reservation through three firings: PENDING until the clock
    reaches 2000, EXPIRED from then on. *)
Example pending_row_expires :
  map status
      [autoUpdateMany [Some 1500] (Sample.adminRow "PENDING");
       autoUpdateMany [Some 1500; Some 2000] (Sample.adminRow "PENDING");
       autoUpdateMany [Some 1500; Some 2000; Some 1000] (Sample.adminRow "PENDING")]
  = ["PENDING"; "EXPIRED"; "EXPIRED"].
Proof. reflexivity. Qed.

(** ** Login *)

Module AuthFacts.
Import Auth.

(** What the [catch] block of [login] leaves behind, from any state: it
    always ends by throwing, and the session is gone. *)
Lemma login_catch_clears isAdmin error s :
  (exists e, fst (login_catch isAdmin error s) = Throw e) /\
  noSession (snd (login_catch isAdmin error s)) /\
  loading (snd (login_catch isAdmin error s)) = loading s.
Proof.
  unfold login_catch, noSession, when.
  destruct (isAxiosError error), (response_status_is error 401),
    (response_status_is error 403); cbn.
  all: repeat split; eauto; simplify_map_eq; done.
Qed.

(** [login] seen through its three blocks. *)
Lemma login_blocks stringify server email password isAdmin s :
  login stringify server email password isAdmin s =
  let s0 := snd (setLoading true s) in
  let '(c1, s1) := login_try stringify server email password isAdmin s0 in
  match c1 with
  | Normal v => (Normal v, snd (setLoading false s1))
  | Throw error =>
      let '(c2, s2) := login_catch isAdmin error s1 in
      (c2, snd (setLoading false s2))
  end.
Proof.
  unfold login, try_catch_finally, mbind, M_bind. cbn.
  destruct (login_try _ _ _ _ _ _) as [[v|error] s1]; [reflexivity|].
  now destruct (login_catch isAdmin error s1) as [c2 s2].
Qed.

(** The [try] block throws exactly in the three failing outcomes. *)
Lemma login_try_throws stringify server email password isAdmin s :
  (exists error, fst (login_try stringify server email password isAdmin s) = Throw error)
  <-> loginFails server email password isAdmin.
Proof.
  unfold login_try, when, mbind, M_bind, await. cbn. split.
  - intros [error H].
    destruct (post_token server email password) as [r|e] eqn:Hpost; cbn in H.
    + destruct (get_users_me server ("Bearer " +:+ access r)) as [u|e] eqn:Hme; cbn in H.
      * destruct isAdmin; cbn in H; [|discriminate H].
        destruct (String.eqb (role u) "ADMIN") eqn:Hrole; cbn in H; [discriminate H|].
        eapply not_an_admin; eauto. now apply String.eqb_neq.
      * eapply me_request_rejected; eauto.
    + eapply token_request_rejected; eauto.
  - intros [e Hpost | r e Hpost Hme | r u Hpost Hme -> Hrole].
    + rewrite Hpost. cbn. eauto.
    + rewrite Hpost. cbn. rewrite Hme. cbn. eauto.
    + rewrite Hpost. cbn. rewrite Hme. cbn.
      apply String.eqb_neq in Hrole. rewrite Hrole. cbn. eauto.
Qed.

Lemma noSession_setLoading b s : noSession s -> noSession (snd (setLoading b s)).
Proof. unfold noSession. cbn. tauto. Qed.

(** Whenever [login] throws, no session is left. *)
Lemma login_throw_clears stringify server email password isAdmin s e :
  fst (login stringify server email password isAdmin s) = Throw e ->
  noSession (snd (login stringify server email password isAdmin s)).
Proof.
  rewrite login_blocks. cbv zeta.
  destruct (login_try _ _ _ _ _ _) as [[v|error] s1]; [discriminate|].
  destruct (login_catch_clears isAdmin error s1) as (_ & Hclear & _).
  destruct (login_catch isAdmin error s1) as [c2 s2]. intros _.
  now apply noSession_setLoading.
Qed.

(** C9: in each failing outcome of [login] (the token request or the
    current-user request is rejected, or a user whose role is not ADMIN
    logs in through the admin form), the call throws and the state it
    leaves has [token] and [user] null and no [access_token],
    [refresh_token] or [user] entry in [localStorage]; the default
    [Authorization] header is gone as well and [loading] is back to
    false. *)
Theorem login_failure_leaves_no_session stringify server email password isAdmin s :
  loginFails server email password isAdmin ->
  let result := login stringify server email password isAdmin s in
  (exists e, fst result = Throw e) /\
  noSession (snd result) /\
  loading (snd result) = false.
Proof.
  intros Hfail result. subst result. rewrite login_blocks. cbv zeta.
  apply (login_try_throws stringify server email password isAdmin
           (snd (setLoading true s))) in Hfail as [error Htry].
  destruct (login_try _ _ _ _ _ _) as [c1 s1]. cbn in Htry. subst c1.
  destruct (login_catch_clears isAdmin error s1) as ([e He] & Hclear & _).
  destruct (login_catch isAdmin error s1) as [c2 s2]. cbn in He. subst c2.
  split; [eauto|]. split; [now apply noSession_setLoading | reflexivity].
Qed.

End AuthFacts.

(** ** Regular expressions: the matcher against the language *)

Module RegexFacts.
Import Regex.

Lemma append_nil_inv (s1 s2 : string) :
  s1 +:+ s2 = EmptyString -> s1 = EmptyString /\ s2 = EmptyString.
Proof. destruct s1; cbn; [auto | discriminate]. Qed.

Lemma append_cons_inv (s1 s2 : string) c s :
  s1 +:+ s2 = String c s ->
  (s1 = EmptyString /\ s2 = String c s) \/
  (exists s1', s1 = String c s1' /\ s = s1' +:+ s2).
Proof.
  destruct s1 as [|c1 s1']; cbn; [auto|].
  intros [= -> <-]. right. eauto.
Qed.

Lemma Matches_nil_nullable r s :
  Matches r s -> s = EmptyString -> nullable r = true.
Proof.
  induction 1 as [ | ranges c Hc | r1 r2 s1 s2 _ IH1 _ IH2 | r1 r2 s _ IH
                 | r1 r2 s _ IH | r | r s1 s2 _ _ _ _ ]; intros Hs; cbn;
    try reflexivity.
  - discriminate Hs.
  - apply append_nil_inv in Hs as [-> ->]. now rewrite IH1, IH2.
  - now rewrite IH.
  - rewrite IH by assumption. apply orb_true_r.
Qed.

Lemma nullable_Matches r : nullable r = true <-> Matches r EmptyString.
Proof.
  split; [|intros H; now apply (Matches_nil_nullable r EmptyString)].
  induction r as [ | | ranges | r1 IH1 r2 IH2 | r1 IH1 r2 IH2 | r IH ]; cbn; intros H;
    try discriminate H.
  - constructor.
  - apply andb_true_iff in H as [H1 H2].
    change EmptyString with (EmptyString +:+ EmptyString). constructor; auto.
  - apply orb_true_iff in H as [H | H]; [apply MAltL | apply MAltR]; auto.
  - constructor.
Qed.

Lemma deriv_sound c r : forall s, Matches (deriv c r) s -> Matches r (String c s).
Proof.
  induction r as [ | | ranges | r1 IH1 r2 IH2 | r1 IH1 r2 IH2 | r IH ]; cbn; intros s H.
  - inversion H.
  - inversion H.
  - destruct (in_class ranges c) eqn:Hc; inversion H; subst. now constructor.
  - assert (Hseq : forall s, Matches (Seq (deriv c r1) r2) s ->
                             Matches (Seq r1 r2) (String c s)).
    { intros s' H'. inversion H' as [ | | ? ? s1 s2 H1 H2 | | | | ]; subst.
      change (String c (s1 +:+ s2)) with (String c s1 +:+ s2). constructor; auto. }
    destruct (nullable r1) eqn:Hn; [|now apply Hseq].
    inversion H; subst; [now apply Hseq|].
    change (String c s) with (EmptyString +:+ String c s).
    constructor; [now apply nullable_Matches | auto].
  - inversion H; subst; [apply MAltL | apply MAltR]; auto.
  - inversion H as [ | | ? ? s1 s2 H1 H2 | | | | ]; subst.
    change (String c (s1 +:+ s2)) with (String c s1 +:+ s2). constructor; auto.
Qed.

Lemma deriv_complete r s0 :
  Matches r s0 -> forall c s, s0 = String c s -> Matches (deriv c r) s.
Proof.
  induction 1 as [ | ranges c0 Hc | r1 r2 s1 s2 H1 IH1 H2 IH2 | r1 r2 s0 _ IH
                 | r1 r2 s0 _ IH | r | r s1 s2 H1 IH1 H2 IH2 ]; intros c s Hs; cbn.
  - discriminate Hs.
  - injection Hs as -> <-. rewrite Hc. constructor.
  - apply append_cons_inv in Hs as [[-> ->] | (s1' & -> & ->)].
    + rewrite (Matches_nil_nullable _ _ H1 eq_refl). apply MAltR. now apply IH2.
    + assert (Matches (Seq (deriv c r1) r2) (s1' +:+ s2))
        by (constructor; [now apply IH1 | assumption]).
      destruct (nullable r1); [now apply MAltL | assumption].
  - apply MAltL. now apply IH.
  - apply MAltR. now apply IH.
  - discriminate Hs.
  - apply append_cons_inv in Hs as [[-> ->] | (s1' & -> & ->)].
    + now apply IH2.
    + constructor; [now apply IH1 | assumption].
Qed.

(** The matcher decides the language. *)
Lemma test_Matches s : forall r, test r s = true <-> Matches r s.
Proof.
  induction s as [|c s IH]; intros r; cbn.
  - apply nullable_Matches.
  - rewrite IH. split; [apply deriv_sound|].
    intros H. now apply (deriv_complete r (String c s)).
Qed.

Lemma Matches_Class_inv ranges s :
  Matches (Class ranges) s ->
  exists c, s = String c EmptyString /\ in_class ranges c = true.
Proof. inversion 1; subst. eauto. Qed.

(** [[...]*] matches the strings made of characters of the class. *)
Lemma Matches_Star_Class ranges s :
  Matches (Star (Class ranges)) s <-> all_in_class ranges s = true.
Proof.
  split.
  - intros H. remember (Star (Class ranges)) as r eqn:Hr.
    induction H as [ | | | | | r | r s1 s2 H1 _ H2 IH2 ]; try discriminate Hr.
    + reflexivity.
    + injection Hr as ->.
      apply Matches_Class_inv in H1 as (c & -> & Hc).
      change (String c EmptyString +:+ s2) with (String c s2). cbn [all_in_class].
      rewrite Hc. now apply IH2.
  - induction s as [|c s IH]; cbn [all_in_class]; intros H; [constructor|].
    apply andb_true_iff in H as [Hc Hs].
    change (String c s) with (String c EmptyString +:+ s).
    constructor; [now constructor | auto].
Qed.

(** [[...]{0,n}] matches those of them of length at most [n]. *)
Lemma Matches_upto_Class ranges n : forall s,
  Matches (upto n (Class ranges)) s <->
  all_in_class ranges s = true /\ (String.length s <= n)%nat.
Proof.
  induction n as [|n IH]; intros s; cbn.
  - split.
    + inversion 1; subst. cbn. auto.
    + intros [_ Hlen]. destruct s; cbn in Hlen; [constructor | lia].
  - split.
    + intros H. inversion H as [ | | | ? ? ? H' | ? ? ? H' | | ]; subst.
      * inversion H'; subst. cbn. split; [reflexivity | lia].
      * inversion H' as [ | | ? ? s1 s2 H1 H2 | | | | ]; subst.
        apply Matches_Class_inv in H1 as (c & -> & Hc).
        apply IH in H2 as [Hall Hlen].
        change (String c EmptyString +:+ s2) with (String c s2).
        cbn [all_in_class String.length]. rewrite Hc, Hall. split; [reflexivity | lia].
    + intros [Hall Hlen]. destruct s as [|c s]; [apply MAltL; constructor|].
      cbn [all_in_class String.length] in Hall, Hlen. apply andb_true_iff in Hall as [Hc Hall].
      apply MAltR. change (String c s) with (String c EmptyString +:+ s).
      constructor; [now constructor|]. apply IH. split; [assumption | lia].
Qed.

End RegexFacts.

(** ** The vehicle plate input *)

Section VehiclePlateFacts.

Variable toUpperCase : string -> string.

(** The guard of the handler is the test of [^[A-Z0-9]{0,6}$]. *)
Lemma plate_guard (value : string) :
  Regex.test plate_input_regex value && (String.length value <=? 6)%nat =
  Regex.test plate_regex value.
Proof.
  apply eq_true_iff_eq. unfold plate_input_regex, plate_regex, AZ09.
  rewrite andb_true_iff, !RegexFacts.test_Matches, Nat.leb_le.
  rewrite RegexFacts.Matches_Star_Class, RegexFacts.Matches_upto_Class.
  reflexivity.
Qed.

Lemma handleVehiclePlateChange_guard target_value vehiclePlate :
  handleVehiclePlateChange toUpperCase target_value vehiclePlate =
  if Regex.test plate_regex (toUpperCase target_value)
  then toUpperCase target_value else vehiclePlate.
Proof. unfold handleVehiclePlateChange. cbv zeta. now rewrite plate_guard. Qed.

Lemma plateStep_valid vehiclePlate ev :
  Regex.test plate_regex vehiclePlate = true ->
  Regex.test plate_regex (plateStep toUpperCase vehiclePlate ev) = true.
Proof.
  intros H. destruct ev as [target_value|]; [|reflexivity].
  cbn [plateStep]. rewrite handleVehiclePlateChange_guard.
  now destruct (Regex.test plate_regex (toUpperCase target_value)) eqn:E.
Qed.

Lemma fold_plateStep_valid events : forall vehiclePlate,
  Regex.test plate_regex vehiclePlate = true ->
  Regex.test plate_regex (fold_left (plateStep toUpperCase) events vehiclePlate) = true.
Proof.
  induction events as [|ev events IH]; intros vehiclePlate H; [exact H|].
  cbn [fold_left]. apply IH. now apply plateStep_valid.
Qed.

(** The stored plate matches the pattern in every reachable state. *)
Lemma plateAfter_valid events :
  Regex.test plate_regex (plateAfter toUpperCase events) = true.
Proof. unfold plateAfter. now apply fold_plateStep_valid. Qed.

(** C10: whatever has been typed before, after a change event the stored
    plate matches [^[A-Z0-9]{0,6}$]: it is the upper-cased value of the
    input when that value matches, and the plate of before otherwise. *)
Theorem vehicle_plate_invariant (events : list PlateEvent) (target_value : string) :
  let vehiclePlate := plateAfter toUpperCase events in
  let value := toUpperCase target_value in
  let vehiclePlate' := handleVehiclePlateChange toUpperCase target_value vehiclePlate in
  Regex.test plate_regex vehiclePlate' = true /\
  (Regex.test plate_regex value = true -> vehiclePlate' = value) /\
  (Regex.test plate_regex value = false -> vehiclePlate' = vehiclePlate).
Proof.
  cbv zeta. split.
  - apply (plateStep_valid _ (Change target_value)), plateAfter_valid.
  - rewrite handleVehiclePlateChange_guard. split; now intros ->.
Qed.

End VehiclePlateFacts.

(** Typing [ab1234], then a seventh character, then a dash. *)
Example plate_typing :
  map (plateAfter ascii_toUpperCase)
      [[Change "a"; Change "ab"; Change "ab1234"];
       [Change "ab1234"; Change "ab12345"];
       [Change "ab1234"; Change "ab-234"];
       [Change "ab1234"; Submitted]]
  = ["AB1234"; "AB1234"; "AB1234"; ""].
Proof. reflexivity. Qed.

(** ** The properties at the sample data *)

(** Alice's CONFIRMED reservation (1000 to 2000) seen by Bob at 1500. *)
Lemma confirmed_in_use_is_occupied_sample :
  let now : Date := Some 1500 in
  let r := Sample.booking "CONFIRMED" in
  let spot := Sample.slotA1 false (Some r) in
  (current_reservation spot = Some r /\ cr_status r = "CONFIRMED" /\
   JsDate.lt (cr_start_time r) now = true /\ JsDate.lt now (cr_end_time r) = true) /\
  getSlotStatus now (Some Sample.bob) spot = status_Occupied /\
  evaluate now (Some Sample.bob) spot = (Some OCCUPIED, []).
Proof.
  cbv zeta. split; [repeat split; reflexivity|].
  apply (confirmed_in_use_is_occupied (Some 1500) (Some Sample.bob)
           (Sample.slotA1 false (Some (Sample.booking "CONFIRMED")))
           (Sample.booking "CONFIRMED")); reflexivity.
Defined.

(** Alice's PENDING reservation seen by Alice, long after its end. *)
Lemma pending_owner_can_cancel_sample :
  let now : Date := Some 9000 in
  let r := Sample.booking "PENDING" in
  let spot := Sample.slotA1 true (Some r) in
  (current_reservation spot = Some r /\ cr_status r = "PENDING" /\
   cr_user r = user_id Sample.alice) /\
  getSlotStatus now (Some Sample.alice) spot = status_Pending 42 /\
  evaluate now (Some Sample.alice) spot = (Some PENDING, [CANCEL (Some 42)]).
Proof.
  cbv zeta. split; [repeat split|].
  apply (pending_owner_can_cancel (Some 9000) Sample.alice
           (Sample.slotA1 true (Some (Sample.booking "PENDING")))
           (Sample.booking "PENDING")); reflexivity.
Defined.

(** A free slot, and a slot flagged occupied whose reservation is over. *)
Lemma no_reservation_follows_occupancy_flag_sample :
  evaluate (Some 1500) None (Sample.slotA1 false None) = (Some AVAILABLE, [RESERVE]) /\
  evaluate (Some 3000) None (Sample.slotA1 true (Some (Sample.booking "CONFIRMED")))
  = (Some OCCUPIED, []).
Proof.
  split.
  - destruct (no_reservation_follows_occupancy_flag (Some 1500) None
                (Sample.slotA1 false None)) as [Hfree _].
    apply Hfree; reflexivity.
  - destruct (no_reservation_follows_occupancy_flag (Some 3000) None
                (Sample.slotA1 true (Some (Sample.booking "CONFIRMED")))) as [_ Hflag].
    apply Hflag; reflexivity.
Defined.

(** Alice's PENDING reservation at 3000, as Alice, Bob and the admin see
    the slot and as the list of the admin page has it. *)
Lemma pending_past_end_sample :
  let now : Date := Some 3000 in
  let r := Sample.booking "PENDING" in
  let spot := Sample.slotA1 false (Some r) in
  let row := Sample.adminRow "PENDING" in
  (current_reservation spot = Some r /\ cr_status r = "PENDING" /\
   JsDate.gt now (cr_end_time r) = true /\
   status row = "PENDING" /\ JsDate.gt now (end_time row) = true) /\
  evaluate now (Some Sample.alice) spot = (Some PENDING, [CANCEL (Some 42)]) /\
  evaluate now (Some Sample.bob) spot = (Some AVAILABLE, [RESERVE]) /\
  evaluate now (Some Sample.root) spot = (Some AVAILABLE, [RESERVE]) /\
  evaluate now None spot = (Some AVAILABLE, [RESERVE]) /\
  status (autoUpdate now row) = "EXPIRED".
Proof.
  cbv zeta. split; [repeat split; reflexivity|].
  pose proof (fun viewer =>
                pending_past_end (Some 3000) viewer
                  (Sample.slotA1 false (Some (Sample.booking "PENDING")))
                  (Sample.booking "PENDING") (Sample.adminRow "PENDING")
                  eq_refl eq_refl eq_refl eq_refl eq_refl) as H.
  split; [exact (proj2 (proj1 (H (Some Sample.alice)) eq_refl))|].
  split; [exact (proj2 (proj1 (proj2 (H (Some Sample.bob))) eq_refl))|].
  split; [exact (proj2 (proj1 (proj2 (H (Some Sample.root))) eq_refl))|].
  split; [exact (proj2 (proj1 (proj2 (H None)) eq_refl))|].
  exact (proj1 (proj2 (proj2 (proj2 (H None))))).
Defined.



(** Bob, whose role is USER, logs in through the admin form of a browser
    in which Alice's session is stored: the call throws and nothing of
    either session is left. *)
Lemma login_failure_leaves_no_session_sample :
  let result := Auth.login Sample.stringify Sample.accepting
                  "bob@example.com" "secret" true Sample.loggedIn in
  Auth.loginFails Sample.accepting "bob@example.com" "secret" true /\
  (exists e, fst result = Throw e) /\
  Auth.noSession (snd result) /\
  Auth.loading (snd result) = false.
Proof.
  cbv zeta.
  assert (H : Auth.loginFails Sample.accepting "bob@example.com" "secret" true).
  { apply Auth.not_an_admin
      with (r := {| Auth.access := "acc"; Auth.refresh := "ref" |}) (u := Sample.bob);
      [reflexivity | reflexivity | reflexivity | discriminate]. }
  split; [exact H|].
  apply (AuthFacts.login_failure_leaves_no_session Sample.stringify Sample.accepting
           "bob@example.com" "secret" true Sample.loggedIn H).
Defined.

(** After [AB1234], the input [ab12345] is refused and [xy9] accepted. *)
Lemma vehicle_plate_invariant_sample :
  let before := plateAfter ascii_toUpperCase [Change "ab1234"] in
  handleVehiclePlateChange ascii_toUpperCase "ab12345" before = before /\
  handleVehiclePlateChange ascii_toUpperCase "xy9" before = "XY9".
Proof.
  cbv zeta. split.
  - destruct (vehicle_plate_invariant ascii_toUpperCase [Change "ab1234"] "ab12345")
      as (_ & _ & Hkeep).
    apply Hkeep. reflexivity.
  - destruct (vehicle_plate_invariant ascii_toUpperCase [Change "ab1234"] "xy9")
      as (_ & Htake & _).
    apply Htake. reflexivity.
Defined.

(** * Further properties of the code *)

(** ** The slot card: CSS class and cancel dialog *)

(** The class of a slot card is the name of its label; the classes
    [completed] and, for anything but a Pending slot, [pending] are never
    used. *)
Theorem slotClassName_follows_label now viewer spot :
  let status := getSlotStatus now viewer spot in
  (slotLabel status = Some AVAILABLE /\ slotClassName status = "available") \/
  (slotLabel status = Some PENDING /\ slotClassName status = "pending") \/
  (slotLabel status = Some CONFIRMED /\ slotClassName status = "confirmed") \/
  (slotLabel status = Some OCCUPIED /\ slotClassName status = "occupied").
Proof.
  cbv zeta.
  destruct (getSlotStatus_range now viewer spot) as [[rid ->] | [-> | [-> | ->]]];
    cbn; auto 6.
Qed.

(** A Cancel button is drawn only for the viewer's own PENDING reservation
    of that slot and carries its id. *)
Lemma slotActions_cancel now viewer spot x :
  In (CANCEL x) (slotActions (getSlotStatus now viewer spot)) ->
  exists r, current_reservation spot = Some r /\ x = Some (cr_id r) /\
            cr_status r = "PENDING" /\ viewer_owns viewer r = true.
Proof.
  rewrite getSlotStatus_guards.
  destruct (current_reservation spot) as [r|].
  - destruct (guard_pending_owner viewer r) eqn:Hg.
    + cbn. intros [[= <-] | []]. exists r.
      apply andb_true_iff in Hg as [Hs Ho]. apply String.eqb_eq in Hs. auto.
    + unfold occupancy_fallback.
      destruct (guard_in_use now r), (guard_upcoming now r), (is_occupied spot);
        cbn; intros H; decompose [or] H; discriminate || contradiction.
  - unfold occupancy_fallback. destruct (is_occupied spot); cbn;
      intros H; decompose [or] H; discriminate || contradiction.
Qed.

(** Clicking a Cancel button and confirming the dialog can only cancel the
    current reservation of that slot, which is PENDING and the viewer's
    own; when its id is 0 nothing is sent at all. *)
Theorem cancel_targets_own_reservation now viewer spot x st :
  In (CANCEL x) (slotActions (getSlotStatus now viewer spot)) ->
  exists r,
    current_reservation spot = Some r /\
    cr_status r = "PENDING" /\ viewer_owns viewer r = true /\
    CancelDialog.confirmCancel (CancelDialog.click (CANCEL x) st) =
    if cr_id r =? 0 then None else Some (cr_id r).
Proof.
  intros H. apply slotActions_cancel in H as (r & Hr & -> & Hs & Ho).
  exists r. repeat split; auto.
Qed.

(** ** Pagination *)

Module PaginationFacts.
Import Pagination.

Lemma paginationItems_numbers total_pages currentPage item :
  In item (paginationItems total_pages currentPage) ->
  1 <= number item <= total_pages /\ active item = (number item =? currentPage).
Proof.
  unfold paginationItems. rewrite in_map_iff. intros (k & <- & Hk).
  apply in_seq in Hk. cbn. split; [lia | reflexivity].
Qed.

Lemma active_in_seq (c : Z) (len : nat) : forall start : nat,
  List.filter (fun k : nat => Z.of_nat k =? c) (seq start len) =
  if (Z.of_nat start <=? c) && (c <? Z.of_nat (start + len)) then [Z.to_nat c] else [].
Proof.
  induction len as [|len IH]; intros start.
  - cbn [seq List.filter].
    destruct (Z.leb_spec (Z.of_nat start) c), (Z.ltb_spec c (Z.of_nat (start + 0)));
      cbn; try reflexivity; lia.
  - cbn [seq List.filter]. rewrite IH.
    destruct (Z.eqb_spec (Z.of_nat start) c) as [<-|Hne].
    + rewrite Nat2Z.id.
      destruct (Z.leb_spec (Z.of_nat (S start)) (Z.of_nat start)); [lia|].
      destruct (Z.leb_spec (Z.of_nat start) (Z.of_nat start)); [|lia].
      destruct (Z.ltb_spec (Z.of_nat start) (Z.of_nat (start + S len))); [|lia].
      reflexivity.
    + destruct (Z.leb_spec (Z.of_nat (S start)) c), (Z.leb_spec (Z.of_nat start) c),
        (Z.ltb_spec c (Z.of_nat (S start + len))),
        (Z.ltb_spec c (Z.of_nat (start + S len))); cbn; try reflexivity; lia.
Qed.

(** The items are numbered from 1 to [total_pages], and the current page,
    when it is one of them, is the one active item. *)
Theorem paginationItems_active total_pages currentPage :
  map number (paginationItems total_pages currentPage) =
    map Z.of_nat (seq 1 (Z.to_nat total_pages)) /\
  List.filter active (paginationItems total_pages currentPage) =
    if (1 <=? currentPage) && (currentPage <=? total_pages)
    then [{| number := currentPage; active := true |}] else [].
Proof.
  unfold paginationItems. split.
  - rewrite map_map. reflexivity.
  - rewrite filter_map_swap. cbn [active]. rewrite active_in_seq.
    destruct (Z.leb_spec 1 currentPage) as [H1|H1];
      [change (Z.of_nat 1) with 1; destruct (Z.leb_spec 1 currentPage); [|lia]
      |change (Z.of_nat 1) with 1; destruct (Z.leb_spec 1 currentPage); [lia|reflexivity]].
    cbn [andb].
    destruct (Z.leb_spec currentPage total_pages),
      (Z.ltb_spec currentPage (Z.of_nat (1 + Z.to_nat total_pages))); try lia.
    + cbn [map]. rewrite Z2Nat.id by lia. now rewrite Z.eqb_refl.
    + reflexivity.
Qed.

(** With the current page between 1 and [total_pages], the handler of a
    control that is drawn stores a page outside that range in two cases
    only: Prev on page 1, which stores 0, and Next on the last page, which
    stores [total_pages + 1].  Both controls are marked disabled then, so
    that every control not marked disabled leads to a page in the range;
    the program itself does not stop the handler of a disabled control. *)
Theorem page_stays_in_range total_pages currentPage c :
  1 <= currentPage <= total_pages ->
  In c (controls total_pages currentPage) ->
  (1 <= click total_pages currentPage c <= total_pages <->
   ~ (c = Prev /\ currentPage = 1) /\ ~ (c = Next /\ currentPage = total_pages)) /\
  (disabled total_pages currentPage c = false ->
   1 <= click total_pages currentPage c <= total_pages) /\
  (c = Prev -> currentPage = 1 ->
   disabled total_pages currentPage c = true /\ click total_pages currentPage c = 0) /\
  (c = Next -> currentPage = total_pages ->
   disabled total_pages currentPage c = true /\
   click total_pages currentPage c = total_pages + 1).
Proof.
  intros Hrange Hc. unfold click, controls in *.
  destruct (1 <? total_pages); [|contradiction].
  assert (Hitem : forall n, c = PageItem n -> 1 <= n <= total_pages).
  { intros n ->. cbn in Hc. destruct Hc as [Hc | [Hc | Hc]]; try discriminate Hc.
    apply in_app_or in Hc as [Hc | Hc].
    - apply in_map_iff in Hc as (item & [= <-] & Hitem).
      now apply paginationItems_numbers in Hitem.
    - cbn in Hc. decompose [or] Hc; discriminate || contradiction. }
  assert (Hin : disabled total_pages currentPage c = false ->
                1 <= target total_pages currentPage c <= total_pages).
  { destruct c as [ | | n | | ]; cbn [target disabled]; intros Hd;
      try apply Z.eqb_neq in Hd; try lia. now apply (Hitem n). }
  split; [|split; [exact Hin|split]].
  - split.
    + intros Hin'. split; intros [-> Hp]; cbn [target] in Hin'; lia.
    + intros [Hp Hn]. destruct c as [ | | n | | ]; cbn [target]; try lia.
      * assert (currentPage <> 1) by (intros E; apply Hp; auto). lia.
      * now apply (Hitem n).
      * assert (currentPage <> total_pages) by (intros E; apply Hn; auto). lia.
  - intros -> ->. cbn. split; reflexivity.
  - intros -> ->. cbn. split; [apply Z.eqb_refl | reflexivity].
Qed.

End PaginationFacts.

(** ** The time pickers *)

Module TimeFormFacts.
Import TimeForm.

(** After a change of either picker, [timeError] says whether the start is
    not before the end. *)
Lemma step_timeError st ev :
  isPickerChange ev = true ->
  timeError (step st ev) =
  if notBefore (startTime (step st ev)) (endTime (step st ev))
  then "End time must be after start time" else "".
Proof. destruct ev; [reflexivity | reflexivity | discriminate]. Qed.

Lemma run_snoc events ev st : run (events ++ [ev]) st = step (run events st) ev.
Proof. unfold run. now rewrite fold_left_app. Qed.

(** A submission touches neither error. *)
Lemma handleReservationSubmit_errors selectedSpot post now1 now2 st :
  timeError (handleReservationSubmit selectedSpot post now1 now2 st) = timeError st /\
  startTimeError (handleReservationSubmit selectedSpot post now1 now2 st) =
    startTimeError st.
Proof.
  unfold handleReservationSubmit.
  destruct selectedSpot, (startTime st) as [[?|]|], (endTime st) as [[?|]|],
    post as [response_status|?]; cbn; auto.
  all: destruct (response_status =? 201); auto.
Qed.

(** Right after a change of either picker, an enabled Reserve button means
    that the start lies before the end, when both pickers hold a valid
    date.  A submission leaves both errors, and with them the button, as
    they were; when it creates the reservation (status 201) it sets the two
    pickers to two readings of the clock, so that the button can then be
    enabled with a start that is not before the end. *)
Theorem enabled_means_ordered events ev st :
  (isPickerChange ev = true ->
   forall s e,
     submitDisabled (run (events ++ [ev]) st) = false ->
     startTime (run (events ++ [ev]) st) = Some (Some s) ->
     endTime (run (events ++ [ev]) st) = Some (Some e) ->
     s < e) /\
  (forall selectedSpot post now1 now2,
     ev = Submit selectedSpot post now1 now2 ->
     timeError (run (events ++ [ev]) st) = timeError (run events st) /\
     startTimeError (run (events ++ [ev]) st) = startTimeError (run events st) /\
     submitDisabled (run (events ++ [ev]) st) = submitDisabled (run events st)) /\
  (forall now1 now2 s0 e0,
     ev = Submit true (Normal 201) now1 now2 ->
     startTime (run events st) = Some (Some s0) ->
     endTime (run events st) = Some (Some e0) ->
     startTime (run (events ++ [ev]) st) = Some now1 /\
     endTime (run (events ++ [ev]) st) = Some now2).
Proof.
  rewrite run_snoc. split; [|split].
  - intros Hev s e Hd Hs He.
    unfold submitDisabled in Hd. apply orb_false_elim in Hd as [Hd _].
    rewrite (step_timeError _ _ Hev), Hs, He in Hd. cbn in Hd.
    destruct (Z.leb_spec e s) as [Hle|Hlt]; [discriminate Hd | exact Hlt].
  - intros selectedSpot post now1 now2 ->. cbn [step].
    destruct (handleReservationSubmit_errors selectedSpot post now1 now2 (run events st))
      as [Ht Hs].
    unfold submitDisabled. rewrite Ht, Hs. auto.
  - intros now1 now2 s0 e0 -> Hs He. cbn [step].
    unfold handleReservationSubmit. rewrite Hs, He. cbn. auto.
Qed.

Lemma run_keeps_startTimeError events : forall st,
  forallb keepsStartError events = true ->
  startTimeError (run events st) = startTimeError st.
Proof.
  unfold run. induction events as [|ev events IH]; intros st H; [reflexivity|].
  cbn [forallb] in H. apply andb_true_iff in H as [Hev H].
  cbn [fold_left]. rewrite (IH _ H).
  destruct ev as [now [v|] | v | selectedSpot post now1 now2];
    try discriminate Hev; try reflexivity.
  apply handleReservationSubmit_errors.
Qed.

(** A start-time error is not cleared by changing the end picker, by
    emptying the start picker or by submitting the form: the Reserve button
    stays disabled until a start time in the future is picked. *)
Theorem start_error_is_sticky events st :
  forallb keepsStartError events = true ->
  startTimeError st <> "" ->
  startTimeError (run events st) = startTimeError st /\
  submitDisabled (run events st) = true.
Proof.
  intros Hev Herr. pose proof (run_keeps_startTimeError events st Hev) as Hkeep.
  split; [exact Hkeep|].
  unfold submitDisabled. rewrite Hkeep.
  apply String.eqb_neq in Herr. rewrite Herr. apply orb_true_r.
Qed.

(** When the Reserve button is enabled, the start time that was picked last
    lies after the clock reading of that moment. *)
Theorem enabled_means_future_start now v events st n :
  forallb keepsStartError events = true ->
  now = Some n ->
  submitDisabled (run events (handleStartTimeChange now (Some (Some v)) st)) = false ->
  n < v.
Proof.
  intros Hev -> Hd.
  unfold submitDisabled in Hd. apply orb_false_elim in Hd as [_ Hd].
  rewrite (run_keeps_startTimeError events _ Hev) in Hd. cbn in Hd.
  destruct (Z.leb_spec v n) as [Hle|Hlt]; [discriminate Hd | exact Hlt].
Qed.

End TimeFormFacts.

(** ** Optimistic updates and their rollback *)

Lemma with_status_same r : with_status r (status r) = r.
Proof. now destruct r. Qed.

Lemma with_status_eq r s : with_status r s = r <-> s = status r.
Proof.
  split; [intros H; apply (f_equal status) in H; exact H|].
  intros ->. apply with_status_same.
Qed.

Lemma setStatusOf_twice rid s1 s2 prev :
  setStatusOf rid s2 (setStatusOf rid s1 prev) = setStatusOf rid s2 prev.
Proof.
  unfold setStatusOf. rewrite map_map. apply map_ext. intros r.
  destruct (id r =? rid) eqn:E; cbn; now rewrite E.
Qed.

Lemma setStatusOf_id rid s prev :
  setStatusOf rid s prev = prev <->
  Forall (fun r => id r = rid -> status r = s) prev.
Proof.
  unfold setStatusOf. induction prev as [|r prev IH]; cbn [map].
  - split; [constructor | reflexivity].
  - split.
    + intros [= Hr Hprev]. constructor; [|now apply IH].
      intros Hid. apply Z.eqb_eq in Hid. rewrite Hid in Hr.
      symmetry. now apply with_status_eq.
    + intros H. inversion H as [|? ? Hr Hprev]; subst. f_equal; [|now apply IH].
      destruct (Z.eqb_spec (id r) rid) as [Hid|]; [|reflexivity].
      apply with_status_eq. symmetry. now apply Hr.
Qed.

(** The rollback of a failed confirmation or refusal gives back the list
    of before exactly when every reservation with that id was PENDING: the
    rollback writes PENDING whatever the status was. *)
Theorem rollback_restores_pending_only (a : AdminAction) (prev : list Reservation) :
  onError a (onMutate a prev) = prev <->
  Forall (fun r => id r = targetId a -> status r = "PENDING") prev.
Proof.
  destruct a as [rid | rid]; cbn [onError onMutate targetId];
    unfold confirm_onError, confirm_onMutate, decline_onError, decline_onMutate;
    rewrite setStatusOf_twice; apply setStatusOf_id.
Qed.

(** An optimistic update touches only the reservations with the id of the
    button pressed, and takes the buttons off their cards. *)
Theorem onMutate_only_target (a : AdminAction) (prev : list Reservation) (i : nat) r :
  prev !! i = Some r ->
  exists r', onMutate a prev !! i = Some r' /\
    (id r <> targetId a -> r' = r) /\
    (id r = targetId a -> cardActions r' = [] /\ with_status r' (status r) = r).
Proof.
  intros Hi.
  assert (Hmap : forall rid s, setStatusOf rid s prev !! i =
                   Some (if id r =? rid then with_status r s else r)).
  { intros rid s. unfold setStatusOf.
    change (map ?f prev) with (f <$> prev). now rewrite list_lookup_fmap, Hi. }
  destruct a as [rid | rid]; cbn [onMutate targetId];
    unfold confirm_onMutate, decline_onMutate; rewrite Hmap;
    eexists; (split; [reflexivity|]);
    destruct (Z.eqb_spec (id r) rid) as [Hid|Hid]; split; intros H;
      try contradiction; try reflexivity;
      (split; [reflexivity | exact (with_status_same r)]).
Qed.

Lemma JsDate_le_trans a b c :
  JsDate.le a b = true -> JsDate.le b c = true -> JsDate.le a c = true.
Proof.
  rewrite !JsDateFacts.le_spec.
  intros (x & y & -> & -> & H) (y' & z & [= <-] & -> & H').
  exists x, z. repeat split. lia.
Qed.

Lemma autoUpdate_id now r : id (autoUpdate now r) = id r.
Proof.
  unfold autoUpdate.
  destruct (String.eqb (status r) "PENDING" && JsDate.le (end_time r) now); [reflexivity|].
  now destruct (String.eqb (status r) "CONFIRMED" && JsDate.le (end_time r) now).
Qed.

(** One reservation through an optimistic update to [s], a firing, the
    rollback and a second firing. *)
Lemma rollback_then_firing rid s now1 now2 r :
  s = "CONFIRMED" \/ s = "CANCELLED" ->
  (id r = rid -> status r = "PENDING") ->
  JsDate.le now1 now2 = true ->
  let optimistic r := if id r =? rid then with_status r s else r in
  let rollback r := if id r =? rid then with_status r "PENDING" else r in
  autoUpdate now2 (rollback (autoUpdate now1 (optimistic r))) =
  autoUpdate now2 (autoUpdate now1 r).
Proof.
  intros Hs Hpending Hclock optimistic rollback. subst optimistic rollback. cbv beta.
  destruct (Z.eqb_spec (id r) rid) as [Hid|Hid].
  - specialize (Hpending Hid).
    assert (Hback : forall r', id r' = rid -> with_status r' "PENDING" = r ->
                      autoUpdate now2 (if id r' =? rid then with_status r' "PENDING" else r')
                      = autoUpdate now2 (autoUpdate now1 r)).
    { intros r' Hid' Hr'. apply Z.eqb_eq in Hid'. rewrite Hid', Hr'.
      rewrite (autoUpdate_PENDING now1 r Hpending).
      destruct (JsDate.le (end_time r) now1) eqn:He; [|reflexivity].
      rewrite (autoUpdate_PENDING now2 r Hpending),
        (JsDate_le_trans _ _ _ He Hclock).
      symmetry. now apply autoUpdate_terminal. }
    apply Hback.
    + now rewrite autoUpdate_id.
    + destruct Hs as [-> | ->].
      * rewrite autoUpdate_CONFIRMED by reflexivity. cbn [end_time with_status].
        destruct (JsDate.le (end_time r) now1); rewrite <- Hpending;
          exact (with_status_same r).
      * rewrite autoUpdate_terminal by reflexivity.
        rewrite <- Hpending. exact (with_status_same r).
  - pose proof (autoUpdate_id now1 r) as Hid1.
    destruct (Z.eqb_spec (id (autoUpdate now1 r)) rid) as [Hid'|_]; [congruence|].
    reflexivity.
Qed.

(** A confirmation or refusal that fails leaves no trace once the interval
    has fired again: the list is the one two firings alone would have
    given, although in between the reservation may have been shown as
    COMPLETED and put back to PENDING. *)
Theorem failed_mutation_leaves_no_trace (a : AdminAction) (clock1 clock2 : nat -> Date)
  (prev : list Reservation) :
  Forall (fun r => id r = targetId a -> status r = "PENDING") prev ->
  (forall i, JsDate.le (clock1 i) (clock2 i) = true) ->
  autoUpdateAll clock2 (onError a (autoUpdateAll clock1 (onMutate a prev))) =
  autoUpdateAll clock2 (autoUpdateAll clock1 prev).
Proof.
  intros Hprev. revert clock1 clock2.
  assert (Hs : exists s, (s = "CONFIRMED" \/ s = "CANCELLED") /\
                         onMutate a = setStatusOf (targetId a) s /\
                         onError a = setStatusOf (targetId a) "PENDING").
  { destruct a; [exists "CANCELLED" | exists "CONFIRMED"]; auto. }
  destruct Hs as (s & Hs & -> & ->). unfold autoUpdateAll, setStatusOf.
  induction Hprev as [|r prev Hr _ IH]; intros clock1 clock2 Hclock; [reflexivity|].
  cbn [map imap]. f_equal.
  - apply (rollback_then_firing (targetId a) s (clock1 0%nat) (clock2 0%nat) r Hs Hr).
    apply Hclock.
  - apply (IH (clock1 ∘ S) (clock2 ∘ S)). intros i. apply Hclock.
Qed.

(** ** The tabs *)

(** Membership in a tab, tab by tab. *)
Lemma inTab_keys now r :
  inTab "pending" now r = String.eqb (status r) "PENDING" /\
  inTab "confirmed" now r =
    (String.eqb (status r) "CONFIRMED" && JsDate.gt (end_time r) now) /\
  inTab "completed" now r =
    (String.eqb (status r) "COMPLETED" ||
     String.eqb (status r) "CONFIRMED" && JsDate.le (end_time r) now) /\
  inTab "cancelled" now r = String.eqb (status r) "CANCELLED" /\
  inTab "expired" now r = String.eqb (status r) "EXPIRED".
Proof. repeat split. Qed.

Ltac tab_cases H :=
  cbn in H; repeat (destruct H as [<- | H]); try contradiction.

Lemma gt_le_exclusive (a b : Date) :
  JsDate.gt a b = true -> JsDate.le a b = true -> False.
Proof.
  unfold JsDate.gt. intros H1 H2.
  rewrite (JsDateFacts.le_lt_false _ _ H2) in H1. discriminate H1.
Qed.

(** No reservation is listed in two tabs at the same time; one with a known
    status is listed in exactly one, provided that, when it is CONFIRMED,
    its end time and the clock reading are valid dates. *)
Theorem tabs_partition now r :
  (forall t1 t2, In t1 tabKeys -> In t2 tabKeys ->
     inTab t1 now r = true -> inTab t2 now r = true -> t1 = t2) /\
  (In (status r) ["PENDING"; "CONFIRMED"; "CANCELLED"; "COMPLETED"; "EXPIRED"] ->
   (status r = "CONFIRMED" -> exists e n, end_time r = Some e /\ now = Some n) ->
   exists t, In t tabKeys /\ inTab t now r = true).
Proof.
  destruct (inTab_keys now r) as (Hp & Hc & Hd & Hx & He). split.
  - intros t1 t2 H1 H2. tab_cases H1; tab_cases H2; try reflexivity;
      rewrite ?Hp, ?Hc, ?Hd, ?Hx, ?He; intros T1 T2;
      repeat match goal with
             | H : _ && _ = true |- _ => apply andb_true_iff in H as [? ?]
             | H : _ || _ = true |- _ => apply orb_true_iff in H as [? | ?]
             | H : String.eqb _ _ = true |- _ => apply String.eqb_eq in H
             end;
      try congruence; exfalso; eauto using gt_le_exclusive.
  - intros Hknown Hvalid. cbn in Hknown.
    destruct Hknown as [H | [H | [H | [H | [H | []]]]]]; symmetry in H.
    + exists "pending". split; [cbn; auto|]. now rewrite Hp, H.
    + destruct (Hvalid H) as (e & n & Hend & ->).
      destruct (Z.leb_spec e n) as [Hle|Hlt].
      * exists "completed". split; [cbn; auto|]. rewrite Hd, H, Hend. cbn.
        now apply Z.leb_le.
      * exists "confirmed". split; [cbn; auto|]. rewrite Hc, H, Hend. cbn.
        now apply Z.ltb_lt.
    + exists "cancelled". split; [cbn; auto|]. now rewrite Hx, H.
    + exists "completed". split; [cbn; auto 6|]. now rewrite Hd, H.
    + exists "expired". split; [cbn; auto 6|]. now rewrite He, H.
Qed.

(** A CONFIRMED reservation whose end time is not a valid date is listed
    in no tab at all. *)
Theorem confirmed_without_end_in_no_tab now r t :
  status r = "CONFIRMED" ->
  end_time r = None ->
  In t tabKeys ->
  inTab t now r = false.
Proof.
  intros Hs He Ht. tab_cases Ht; unfold inTab; cbn; rewrite Hs, ?He;
    try reflexivity; now destruct now.
Qed.

(** The badge on a card agrees with the tab the card is listed in. *)
Theorem badge_agrees_with_tab now r t :
  In t tabKeys ->
  inTab t now r = true ->
  badge_text (getStatusBadge now r) = tabStatus t.
Proof.
  destruct (inTab_keys now r) as (Hp & Hc & Hd & Hx & He).
  intros Ht. tab_cases Ht; rewrite ?Hp, ?Hc, ?Hd, ?Hx, ?He; intros T;
    repeat match goal with
           | H : _ && _ = true |- _ => apply andb_true_iff in H as [? ?]
           | H : _ || _ = true |- _ => apply orb_true_iff in H as [? | ?]
           | H : String.eqb _ _ = true |- _ => apply String.eqb_eq in H
           end;
    unfold getStatusBadge;
    match goal with H : status r = _ |- _ => rewrite H end; cbn; try reflexivity.
  - destruct (JsDate.le (end_time r) now) eqn:E; [|reflexivity].
    exfalso. eauto using gt_le_exclusive.
  - match goal with H : JsDate.le _ _ = true |- _ => now rewrite H end.
Qed.

(** A firing of the interval moves a card from one tab to another only in
    one way: a PENDING reservation whose end is reached leaves the pending
    tab for the expired one.  In particular the rewriting of CONFIRMED to
    COMPLETED moves nothing. *)
Theorem firing_moves_pending_to_expired now r :
  inTab "confirmed" now (autoUpdate now r) = inTab "confirmed" now r /\
  inTab "completed" now (autoUpdate now r) = inTab "completed" now r /\
  inTab "cancelled" now (autoUpdate now r) = inTab "cancelled" now r /\
  inTab "pending" now (autoUpdate now r) =
    (inTab "pending" now r && negb (JsDate.le (end_time r) now)) /\
  inTab "expired" now (autoUpdate now r) =
    (inTab "expired" now r || inTab "pending" now r && JsDate.le (end_time r) now).
Proof.
  destruct (inTab_keys now (autoUpdate now r)) as (-> & -> & -> & -> & ->).
  destruct (inTab_keys now r) as (-> & -> & -> & -> & ->).
  destruct (String.eqb_spec (status r) "PENDING") as [Hs|Hp].
  - rewrite (autoUpdate_PENDING _ _ Hs), Hs.
    destruct (JsDate.le (end_time r) now) eqn:E; cbn; rewrite ?Hs; repeat split.
  - destruct (String.eqb_spec (status r) "CONFIRMED") as [Hs|Hc].
    + rewrite (autoUpdate_CONFIRMED _ _ Hs), Hs.
      destruct (JsDate.le (end_time r) now) eqn:E; cbn; rewrite ?Hs, ?E; cbn;
        repeat split.
      unfold JsDate.gt. now rewrite (JsDateFacts.le_lt_false _ _ E).
    + rewrite (autoUpdate_other _ _ Hp Hc).
      apply String.eqb_neq in Hp, Hc. rewrite ?Hp, ?Hc. cbn.
      repeat split; now rewrite ?orb_false_r.
Qed.

(** ** The order of the cards *)

Section SortFacts.

Variable parseDate : string -> Date.









End SortFacts.

(** ** Loading the pages *)

Lemma truthyString_Some url : truthyString (Some url) = negb (String.eqb url "").
Proof. reflexivity. Qed.

(** With more fuel than pages, the loop returns what it had plus the
    results of the pages it visits, in their order. *)
Lemma loadMore_Pages get nextUrl pages failed :
  Pages get nextUrl pages failed ->
  forall fuel currentReservations,
    (length pages < fuel)%nat ->
    loadMore fuel get currentReservations nextUrl =
    Some (currentReservations ++ concat (map results pages))%list.
Proof.
  induction 1 as [nextUrl Hfalsy | url e Hurl Hget | url data rest failed Hurl Hget _ IH];
    intros fuel current Hfuel; (destruct fuel as [|fuel]; [cbn in Hfuel; lia|]);
    cbn [loadMore map concat].
  - rewrite app_nil_r. destruct nextUrl as [url|]; [|reflexivity].
    rewrite truthyString_Some in Hfalsy. apply negb_false_iff in Hfalsy.
    now rewrite Hfalsy.
  - apply String.eqb_neq in Hurl. now rewrite Hurl, Hget, app_nil_r.
  - apply String.eqb_neq in Hurl. rewrite Hurl, Hget.
    rewrite IH by (cbn in Hfuel; lia). now rewrite app_assoc.
Qed.

(** The pages the loop visits are determined by the first link. *)
Lemma Pages_unique get nextUrl pages failed :
  Pages get nextUrl pages failed ->
  forall pages' failed', Pages get nextUrl pages' failed' ->
  pages' = pages /\ failed' = failed.
Proof.
  induction 1 as [nextUrl Hfalsy | url e Hurl Hget | url data rest failed Hurl Hget _ IH];
    intros pages' failed' H'.
  - inversion H' as [? _ | ? ? Hurl' _ | ? ? ? ? Hurl' _ _]; subst; [auto | |];
      rewrite truthyString_Some in Hfalsy; apply negb_false_iff, String.eqb_eq in Hfalsy;
      contradiction.
  - inversion H' as [? Hfalsy | | ? ? ? ? _ Hget' _]; subst; [ | auto | congruence].
    rewrite truthyString_Some in Hfalsy. apply negb_false_iff, String.eqb_eq in Hfalsy.
    contradiction.
  - inversion H' as [? Hfalsy | ? ? _ Hget' | ? data' ? ? _ Hget' Hrest]; subst.
    + rewrite truthyString_Some in Hfalsy. apply negb_false_iff, String.eqb_eq in Hfalsy.
      contradiction.
    + congruence.
    + assert (data' = data) as -> by congruence.
      destruct (IH _ _ Hrest) as [-> ->]. auto.
Qed.

(** [loadAllReservations] stores the first page followed by the pages the
    [next] links lead to, in that order, and ends with [isLoadingMore]
    false.  A request that fails ends the chain without any mark in the
    state: what was loaded before it is stored all the same. *)
Theorem loadAllReservations_collects_pages get data pages failed st fuel :
  Pages get (next data) pages failed ->
  (length pages < fuel)%nat ->
  loadAllReservations fuel get (Some data) st =
  Some {| allReservations := (results data ++ concat (map results pages))%list;
          isLoadingMore := false |}.
Proof.
  intros Hpages Hfuel. unfold loadAllReservations.
  now rewrite (loadMore_Pages get (next data) pages failed Hpages).
Qed.

(** A [next] link that leads back to its own page keeps the loop running
    for ever: no amount of fuel gives a result. *)
Theorem loadMore_cycle_diverges get url data :
  url <> "" ->
  get url = Normal data ->
  next data = Some url ->
  forall fuel currentReservations, loadMore fuel get currentReservations (Some url) = None.
Proof.
  intros Hurl Hget Hnext fuel. apply String.eqb_neq in Hurl.
  induction fuel as [|fuel IH]; intros current; [reflexivity|].
  cbn [loadMore]. rewrite Hurl, Hget, Hnext. apply IH.
Qed.

(** ** Sessions: login, logout, reload, registration *)

Module SessionFacts.
Import Auth Session.

Ltac run_M :=
  unfold try_catch_finally, try_catch, clearSession, noStoredSession, when,
    mbind, M_bind, mret, M_ret, await, throw,
    setUser, setToken, setLoading, localStorage_setItem, localStorage_removeItem,
    localStorage_getItem, set_axios_Authorization;
  cbn.

(** The [try] block of [login] when both requests succeed and the role
    fits the form. *)
Lemma login_try_success stringify server email password isAdmin s r u :
  post_token server email password = Normal r ->
  get_users_me server ("Bearer " +:+ access r) = Normal u ->
  (isAdmin = true -> role u = "ADMIN") ->
  login_try stringify server email password isAdmin s =
  (Normal tt,
   {| user := Some u; token := Some (access r); loading := loading s;
      localStorage :=
        <["user" := stringify u]>
          (<["refresh_token" := refresh r]>
             (<["access_token" := access r]> (localStorage s)));
      axios_Authorization := Some ("Bearer " +:+ access r) |}).
Proof.
  intros Hpost Hme Hrole. unfold login_try. run_M. rewrite Hpost. cbn.
  rewrite Hme. cbn.
  destruct isAdmin; cbn; [rewrite (Hrole eq_refl); cbn|]; reflexivity.
Qed.

(** A login that does not fail returns normally and leaves the session of
    the user the backend named: token, user, the three entries of
    [localStorage] and the default header; through the admin form the
    context then says [isAdmin]. *)
Theorem login_success_establishes_session stringify server email password isAdmin s r u :
  post_token server email password = Normal r ->
  get_users_me server ("Bearer " +:+ access r) = Normal u ->
  (isAdmin = true -> role u = "ADMIN") ->
  let result := login stringify server email password isAdmin s in
  fst result = Normal tt /\
  token (snd result) = Some (access r) /\
  user (snd result) = Some u /\
  localStorage (snd result) !! "access_token" = Some (access r) /\
  localStorage (snd result) !! "refresh_token" = Some (refresh r) /\
  localStorage (snd result) !! "user" = Some (stringify u) /\
  axios_Authorization (snd result) = Some ("Bearer " +:+ access r) /\
  loading (snd result) = false /\
  (isAdmin = true -> Session.isAdmin (snd result) = true).
Proof.
  intros Hpost Hme Hrole result. subst result.
  rewrite AuthFacts.login_blocks. cbv zeta.
  rewrite (login_try_success _ _ _ _ _ _ r u Hpost Hme Hrole). cbn.
  repeat split; try (simplify_map_eq; done).
  intros Hadmin. unfold Session.isAdmin. cbn. now rewrite (Hrole Hadmin).
Qed.

(** [logout] ends the session from any state and removes nothing else from
    [localStorage]. *)
Theorem logout_clears_session_only s :
  fst (logout s) = Normal tt /\
  noSession (snd (logout s)) /\
  loading (snd (logout s)) = false /\
  (forall key, key <> "access_token" -> key <> "refresh_token" -> key <> "user" ->
     localStorage (snd (logout s)) !! key = localStorage s !! key).
Proof.
  unfold logout, noSession. run_M. repeat split; try (simplify_map_eq; done).
  intros key H1 H2 H3. now rewrite !lookup_delete_ne.
Qed.

(** [initializeAuth] by cases on what is stored. *)
Lemma initializeAuth_cases parse s :
  initializeAuth parse s =
  let kept token' user' header :=
    {| user := user'; token := token'; loading := false;
       localStorage := localStorage s; axios_Authorization := header |} in
  match localStorage s !! "access_token", localStorage s !! "user" with
  | Some t, Some u =>
      if negb (String.eqb t "") && negb (String.eqb u "") then
        match parse u with
        | Normal parsed => (Normal tt, kept (Some t) parsed (Some ("Bearer " +:+ t)))
        | Throw _ =>
            (Normal tt,
             {| user := None; token := None; loading := false;
                localStorage :=
                  delete "user" (delete "refresh_token"
                    (delete "access_token" (localStorage s)));
                axios_Authorization := None |})
        end
      else (Normal tt, kept None None None)
  | _, _ => (Normal tt, kept None None None)
  end.
Proof.
  unfold initializeAuth. run_M.
  destruct (localStorage s !! "access_token") as [t|]; cbn;
    destruct (localStorage s !! "user") as [u|]; cbn; try reflexivity.
  destruct (negb (String.eqb t "") && negb (String.eqb u "")); cbn; [|reflexivity].
  destruct (parse u); reflexivity.
Qed.

(** On mount, the context ends authenticated exactly when [localStorage]
    holds a non-empty [access_token] and a non-empty [user] entry that
    parses; the token and the default header are then the stored ones and
    the user is what the entry parses to, which is null for the entry
    [null]: the context is then authenticated without a user.  In every
    other case all three are null.  It never throws and always ends with
    [loading] false. *)
Theorem initializeAuth_restores_stored_session parse s :
  let s' := snd (initializeAuth parse s) in
  fst (initializeAuth parse s) = Normal tt /\
  loading s' = false /\
  (isAuthenticated s' = true <->
   exists t u parsed,
     localStorage s !! "access_token" = Some t /\ t <> "" /\
     localStorage s !! "user" = Some u /\ u <> "" /\
     parse u = Normal parsed /\
     token s' = Some t /\ user s' = parsed /\
     axios_Authorization s' = Some ("Bearer " +:+ t)) /\
  (forall t u,
     localStorage s !! "access_token" = Some t -> t <> "" ->
     localStorage s !! "user" = Some u -> u <> "" ->
     parse u = Normal None ->
     isAuthenticated s' = true /\ user s' = None /\ isAdmin s' = false) /\
  (isAuthenticated s' = false ->
   token s' = None /\ user s' = None /\ axios_Authorization s' = None).
Proof.
  cbv zeta. rewrite initializeAuth_cases. cbv zeta.
  destruct (localStorage s !! "access_token") as [t|] eqn:Et;
    destruct (localStorage s !! "user") as [u|] eqn:Eu.
  2-4: cbn; split; [reflexivity|]; split; [reflexivity|];
       split; [split; [discriminate|]|split; [discriminate|auto]];
       intros (t' & u' & p' & H); decompose [and] H; discriminate.
  destruct (String.eqb_spec t "") as [->|Ht]; cbn.
  { split; [reflexivity|]. split; [reflexivity|].
    split; [split; [discriminate|]|split; [congruence|auto]].
    intros (t' & u' & p' & H). decompose [and] H. congruence. }
  destruct (String.eqb_spec u "") as [->|Hu]; cbn.
  { split; [reflexivity|]. split; [reflexivity|].
    split; [split; [discriminate|]|split; [congruence|auto]].
    intros (t' & u' & p' & H). decompose [and] H. congruence. }
  destruct (parse u) as [parsed|e] eqn:Hparse; cbn.
  - unfold isAuthenticated, isAdmin. cbn. apply String.eqb_neq in Ht as Ht'. rewrite Ht'. cbn.
    split; [reflexivity|]. split; [reflexivity|].
    split; [split|split; [|discriminate]].
    + intros _. exists t, u, parsed. auto 10.
    + reflexivity.
    + intros t' u' [= <-] _ [= <-] _ Hnull.
      rewrite Hnull in Hparse. injection Hparse as <-. auto.
  - split; [reflexivity|]. split; [reflexivity|].
    split; [split; [discriminate|]|split; [|auto]].
    + intros (t' & u' & p' & H). decompose [and] H. congruence.
    + intros t' u' _ _ [= <-] _ Hnull. congruence.
Qed.

(** What [initializeAuth] does to [localStorage]: a [user] entry that does
    not parse costs all three entries; in every other case the storage is
    left as it is, so that a token stored without a user entry stays
    there. *)
Theorem initializeAuth_storage parse s :
  let s' := snd (initializeAuth parse s) in
  (forall t u e,
     localStorage s !! "access_token" = Some t -> t <> "" ->
     localStorage s !! "user" = Some u -> u <> "" ->
     parse u = Throw e ->
     noSession s') /\
  ((localStorage s !! "user" = None \/ localStorage s !! "user" = Some "" \/
    localStorage s !! "access_token" = None \/
    localStorage s !! "access_token" = Some "" \/
    exists u parsed, localStorage s !! "user" = Some u /\ parse u = Normal parsed) ->
   localStorage s' = localStorage s).
Proof.
  cbv zeta. rewrite initializeAuth_cases. cbv zeta. split.
  - intros t u e -> Ht -> Hu ->.
    apply String.eqb_neq in Ht, Hu. rewrite Ht, Hu. cbn.
    unfold noSession. cbn. repeat split; simplify_map_eq; done.
  - intros H.
    destruct (localStorage s !! "access_token") as [t|];
      destruct (localStorage s !! "user") as [u|]; try reflexivity.
    destruct (negb (String.eqb t "") && negb (String.eqb u "")) eqn:E; [|reflexivity].
    apply andb_true_iff in E as [Et Eu].
    apply negb_true_iff, String.eqb_neq in Et, Eu.
    destruct H as [H | [H | [H | [H | (u' & parsed & H & Hparse)]]]];
      try discriminate H; try (injection H as ->; contradiction).
    injection H as <-. now rewrite Hparse.
Qed.

(** A session made by [login] survives a reload of the page: with a token
    that is not empty and a user object that [JSON.parse] reads back from
    what [JSON.stringify] wrote, [initializeAuth] on the fresh state gives
    the same token, user and default header. *)
Theorem session_survives_reload stringify parse server email password isAdmin s r u :
  post_token server email password = Normal r ->
  get_users_me server ("Bearer " +:+ access r) = Normal u ->
  (isAdmin = true -> role u = "ADMIN") ->
  access r <> "" ->
  stringify u <> "" ->
  parse (stringify u) = Normal (Some u) ->
  let s1 := snd (login stringify server email password isAdmin s) in
  let s2 := snd (initializeAuth parse (reload s1)) in
  token s2 = token s1 /\ user s2 = user s1 /\
  axios_Authorization s2 = axios_Authorization s1 /\
  localStorage s2 = localStorage s1 /\
  isAuthenticated s2 = true.
Proof.
  intros Hpost Hme Hrole Haccess Hstr Hparse s1 s2. subst s1 s2.
  rewrite AuthFacts.login_blocks. cbv zeta.
  rewrite (login_try_success _ _ _ _ _ _ r u Hpost Hme Hrole). cbn [snd setLoading].
  rewrite initializeAuth_cases. cbv zeta. cbn [reload localStorage].
  rewrite lookup_insert_ne, lookup_insert_ne, lookup_insert_eq by discriminate.
  rewrite lookup_insert_eq.
  apply String.eqb_neq in Haccess as Ha, Hstr as Hs. rewrite Ha, Hs, Hparse. cbn.
  unfold isAuthenticated. cbn. rewrite Ha. auto.
Qed.

(** [updateUser] changes the user and nothing else of the session, and the
    new user is the one a reload brings back. *)
Theorem updateUser_survives_reload stringify parse userData s t :
  localStorage s !! "access_token" = Some t ->
  t <> "" ->
  stringify userData <> "" ->
  parse (stringify userData) = Normal (Some userData) ->
  let s1 := snd (updateUser stringify userData s) in
  let s2 := snd (initializeAuth parse (reload s1)) in
  user s1 = Some userData /\ token s1 = token s /\
  localStorage s1 !! "access_token" = Some t /\
  user s2 = Some userData /\ token s2 = Some t.
Proof.
  intros Ht Hne Hstr Hparse s1 s2. subst s1 s2.
  rewrite initializeAuth_cases. cbv zeta. unfold updateUser. run_M.
  rewrite lookup_insert_ne, Ht, lookup_insert_eq by discriminate.
  apply String.eqb_neq in Hne, Hstr. rewrite Hne, Hstr, Hparse. cbn. auto.
Qed.

(** The [catch] block of [login] always throws a plain [Error]. *)
Lemma login_catch_throws_Error isAdmin error s :
  exists msg, fst (login_catch isAdmin error s) = Throw (Error msg).
Proof.
  unfold login_catch. run_M.
  destruct (isAxiosError error), (response_status_is error 401),
    (response_status_is error 403); cbn; eauto.
Qed.

Lemma login_throws_Error stringify server email password isAdmin s e :
  fst (login stringify server email password isAdmin s) = Throw e ->
  exists msg, e = Error msg.
Proof.
  rewrite AuthFacts.login_blocks. cbv zeta.
  destruct (login_try _ _ _ _ _ _) as [[v|error] s1]; [discriminate|].
  destruct (login_catch_throws_Error isAdmin error s1) as [msg Hmsg].
  destruct (login_catch isAdmin error s1) as [c2 s2]. cbn in *. subst c2.
  intros [= <-]. eauto.
Qed.

(** A login that returns had both requests answered and, on the admin
    form, an admin to log in. *)
Lemma login_normal_inv stringify server email password isAdmin s :
  fst (login stringify server email password isAdmin s) = Normal tt ->
  exists r u,
    post_token server email password = Normal r /\
    get_users_me server ("Bearer " +:+ access r) = Normal u /\
    (isAdmin = true -> role u = "ADMIN").
Proof.
  rewrite AuthFacts.login_blocks. cbv zeta. intros Hnormal.
  assert (Hnot : ~ loginFails server email password isAdmin).
  { intros Hf.
    apply (AuthFacts.login_try_throws stringify server email password isAdmin
             (snd (setLoading true s))) in Hf as [error Herr].
    destruct (login_try _ _ _ _ _ _) as [c1 s1]. cbn in Herr. subst c1.
    destruct (AuthFacts.login_catch_clears isAdmin error s1) as ([e He] & _).
    destruct (login_catch isAdmin error s1) as [c2 s2]. cbn in *. congruence. }
  destruct (post_token server email password) as [r|e0] eqn:Hpost;
    [|exfalso; apply Hnot; eapply token_request_rejected; eauto].
  destruct (get_users_me server ("Bearer " +:+ access r)) as [u|e1] eqn:Hme;
    [|exfalso; apply Hnot; eapply me_request_rejected; eauto].
  exists r, u. split; [reflexivity|]. split; [exact Hme|]. intros Hadmin.
  destruct (String.eqb_spec (role u) "ADMIN") as [Hr|Hr]; [exact Hr|].
  exfalso. apply Hnot. eapply not_an_admin; eauto.
Qed.

(** [login] does not look at the [loading] flag it starts from. *)
Lemma login_after_setLoading stringify server email password isAdmin b s :
  login stringify server email password isAdmin (snd (setLoading b s)) =
  login stringify server email password isAdmin s.
Proof. rewrite !AuthFacts.login_blocks. reflexivity. Qed.

Lemma register_catch_clears rdm error s :
  (exists e, fst (register_catch rdm error s) = Throw e) /\
  noSession (snd (register_catch rdm error s)) /\
  loading (snd (register_catch rdm error s)) = loading s.
Proof.
  unfold register_catch, noSession. run_M.
  destruct (isAxiosError error), (response_status_is error 400); cbn.
  all: repeat split; eauto; simplify_map_eq; done.
Qed.

(** Whenever [register] throws, be it for the registration request or for
    the login that follows it, no session is left and [loading] is back to
    false. *)
Theorem register_failure_leaves_no_session stringify server post rdm data s e :
  fst (register stringify server post rdm data s) = Throw e ->
  noSession (snd (register stringify server post rdm data s)) /\
  loading (snd (register stringify server post rdm data s)) = false.
Proof.
  unfold register, try_catch_finally, mbind, M_bind, await. cbn.
  destruct (post data) as [[]|e0]; cbn.
  - rewrite (login_after_setLoading stringify server _ _ false true s).
    destruct (login stringify server _ _ false s) as [[v|e1] s1]; cbn; [discriminate|].
    destruct (register_catch_clears rdm e1 s1) as (_ & Hclear & _).
    destruct (register_catch rdm e1 s1) as [c2 s2]. cbn in *. intros _.
    split; [now apply AuthFacts.noSession_setLoading | reflexivity].
  - destruct (register_catch_clears rdm e0 (snd (setLoading true s))) as (_ & Hclear & _).
    destruct (register_catch rdm e0 _) as [c2 s2]. cbn in *. intros _.
    split; [now apply AuthFacts.noSession_setLoading | reflexivity].
Qed.

(** Once the account is created, [register] ends as the login with the new
    credentials through the user form ends: with its session, or throwing
    its error unchanged. *)
Theorem register_ends_as_login stringify server post rdm data s :
  post data = Normal tt ->
  let registered := register stringify server post rdm data s in
  let logged := login stringify server (reg_email data) (reg_password data) false s in
  fst registered = fst logged /\
  (fst logged = Normal tt -> snd registered = snd logged).
Proof.
  intros Hpost registered logged. subst registered logged.
  unfold register, try_catch_finally, mbind, M_bind, await. cbn. rewrite Hpost. cbn.
  rewrite (login_after_setLoading stringify server _ _ false true s).
  pose proof (login_throws_Error stringify server (reg_email data) (reg_password data)
                false s) as Hplain.
  pose proof (AuthFacts.login_blocks stringify server (reg_email data)
                (reg_password data) false s) as Hblocks.
  destruct (login stringify server _ _ false s) as [[[]|e1] s1]; cbn in *.
  - split; [reflexivity|]. intros _.
    cbv zeta in Hblocks.
    destruct (login_try _ _ _ _ _ _) as [[v|err] s']; [|destruct (login_catch _ _ _)];
      injection Hblocks as _ ->; reflexivity.
  - destruct (Hplain e1 eq_refl) as [msg ->].
    unfold register_catch. run_M. split; [reflexivity | discriminate].
Qed.

End SessionFacts.

(** ** The login form *)

Module LoginFormFacts.
Import Auth Session LoginForm.

(** [login] when one of its requests is rejected. *)
Lemma login_rejected stringify server email password isAdmin s e :
  rejection server email password = Some e ->
  fst (login stringify server email password isAdmin s) =
  fst (login_catch isAdmin e s).
Proof.
  unfold rejection. intros H. rewrite AuthFacts.login_blocks. cbv zeta.
  assert (Htry : exists s1,
            login_try stringify server email password isAdmin (snd (setLoading true s))
            = (Throw e, s1)).
  { unfold login_try. SessionFacts.run_M.
    destruct (post_token server email password) as [r|e0]; cbn.
    - destruct (get_users_me server ("Bearer " +:+ access r)) as [u|e1]; cbn;
        [discriminate H|]. injection H as ->. eauto.
    - injection H as ->. eauto. }
  destruct Htry as [s1 ->].
  assert (Hindep : fst (login_catch isAdmin e s1) = fst (login_catch isAdmin e s)).
  { unfold login_catch. SessionFacts.run_M.
    destruct (isAxiosError e), (response_status_is e 401), (response_status_is e 403);
      reflexivity. }
  destruct (login_catch isAdmin e s1) as [c2 s2]. cbn in *. exact Hindep.
Qed.

(** [handleSubmit] when one of the requests of [login] is rejected. *)
Lemma handleSubmit_rejected stringify server pathname email password s e :
  rejection server email password = Some e ->
  fst (handleSubmit stringify server pathname email password s) =
  match fst (login_catch (String.eqb pathname "/admin/login") e s) with
  | Normal _ => Navigated (if String.eqb pathname "/admin/login"
                           then "/admin/dashboard" else "/dashboard")
  | Throw error => Failed (if instanceofError error then message error
                           else "An error occurred")
  end.
Proof.
  intros He. unfold handleSubmit. cbv zeta.
  rewrite <- (login_rejected stringify server email password _ s e He).
  now destruct (login _ _ _ _ _ _) as [[v|err] s'].
Qed.

(** What the form shows after a failed login: for a 401 of either request
    the text about the credentials, for a 403 the text that fits the form,
    for a user who is no admin on the admin form the refusal; any other
    rejection shows its own message.  The text shown is always the message
    of the [Error] that [login] threw: the form's own fallback text is used
    for no failure of [login]. *)
Theorem handleSubmit_shows_login_error stringify server pathname email password s :
  let isAdmin := String.eqb pathname "/admin/login" in
  let shown := fst (handleSubmit stringify server pathname email password s) in
  (forall e, rejection server email password = Some e ->
     isAxiosError e = true -> response_status e = Some 401 ->
     shown = Failed "Invalid email or password") /\
  (forall e, rejection server email password = Some e ->
     isAxiosError e = true -> response_status e = Some 403 ->
     shown = Failed (if isAdmin then "Not authorized as admin"
                     else "Please use admin login")) /\
  (forall e, rejection server email password = Some e ->
     (isAxiosError e = false \/
      (response_status e <> Some 401 /\ response_status e <> Some 403)) ->
     shown = Failed (if instanceofError e then message e
                     else "An error occurred during login")) /\
  (forall r u, post_token server email password = Normal r ->
     get_users_me server ("Bearer " +:+ access r) = Normal u ->
     isAdmin = true -> role u <> "ADMIN" ->
     shown = Failed "Not authorized as admin") /\
  (forall text, shown = Failed text ->
     fst (login stringify server email password isAdmin s) = Throw (Error text)).
Proof.
  cbv zeta. repeat split.
  - intros e He Hax Hst. rewrite (handleSubmit_rejected _ _ _ _ _ _ e He).
    unfold login_catch, response_status_is. SessionFacts.run_M.
    rewrite Hax, Hst. reflexivity.
  - intros e He Hax Hst. rewrite (handleSubmit_rejected _ _ _ _ _ _ e He).
    unfold login_catch, response_status_is. SessionFacts.run_M.
    rewrite Hax, Hst. cbn. now destruct (String.eqb pathname "/admin/login").
  - intros e He Hother. rewrite (handleSubmit_rejected _ _ _ _ _ _ e He).
    unfold login_catch, response_status_is. SessionFacts.run_M.
    destruct Hother as [Hax | [H401 H403]].
    + rewrite Hax. reflexivity.
    + destruct (isAxiosError e); [|reflexivity].
      destruct (response_status e) as [c|]; [|reflexivity].
      destruct (Z.eqb_spec c 401) as [->|]; [congruence|].
      destruct (Z.eqb_spec c 403) as [->|]; [congruence|]. reflexivity.
  - intros r u Hpost Hme Hadmin Hrole. unfold handleSubmit. rewrite Hadmin.
    rewrite AuthFacts.login_blocks. cbv zeta.
    unfold login_try. SessionFacts.run_M. rewrite Hpost. cbn. rewrite Hme. cbn.
    apply String.eqb_neq in Hrole. rewrite Hrole. reflexivity.
  - intros text. unfold handleSubmit. cbv zeta.
    pose proof (SessionFacts.login_throws_Error stringify server email password
                  (String.eqb pathname "/admin/login") s) as Hplain.
    destruct (login stringify server email password _ s) as [[v|e] s']; cbn;
      [discriminate|].
    destruct (Hplain e eq_refl) as [msg ->]. cbn. now intros [= ->].
Qed.

(** The form navigates only with a session in place, and to the admin
    dashboard only when the user of that session is an admin; when it
    shows an error instead, no session is left. *)
Theorem handleSubmit_outcomes stringify server pathname email password s :
  let result := handleSubmit stringify server pathname email password s in
  match fst result with
  | Navigated to =>
      (exists u, user (snd result) = Some u /\ token (snd result) <> None /\
                 (to = "/admin/dashboard" -> role u = "ADMIN")) /\
      (to = "/admin/dashboard" \/ to = "/dashboard")
  | Failed _ => noSession (snd result)
  end.
Proof.
  cbv zeta. unfold handleSubmit. cbv zeta.
  pose proof (AuthFacts.login_throw_clears stringify server email password
                (String.eqb pathname "/admin/login") s) as Hclear.
  pose proof (SessionFacts.login_normal_inv stringify server email password
                (String.eqb pathname "/admin/login") s) as Hinv.
  destruct (login stringify server email password _ s) as [[[]|e] s'] eqn:Hlogin;
    cbn [fst snd] in *.
  - destruct (Hinv eq_refl) as (r & u & Hpost & Hme & Hrole).
    rewrite AuthFacts.login_blocks in Hlogin. cbv zeta in Hlogin.
    rewrite (SessionFacts.login_try_success _ _ _ _ _ _ r u Hpost Hme Hrole) in Hlogin.
    injection Hlogin as <-. cbn. split.
    + exists u. repeat split; [discriminate|].
      destruct (String.eqb pathname "/admin/login"); [auto | discriminate].
    + destruct (String.eqb pathname "/admin/login"); auto.
  - now apply (Hclear e).
Qed.

End LoginFormFacts.



(** ** The further properties at the sample data *)

(** Alice's Cancel button on slot A1 cancels reservation 42. *)
Lemma cancel_targets_own_reservation_sample :
  let spot := Sample.slotA1 false (Some (Sample.booking "PENDING")) in
  In (CANCEL (Some 42)) (slotActions (getSlotStatus (Some 1500) (Some Sample.alice) spot)) /\
  exists r,
    current_reservation spot = Some r /\
    cr_status r = "PENDING" /\ viewer_owns (Some Sample.alice) r = true /\
    CancelDialog.confirmCancel
      (CancelDialog.click (CANCEL (Some 42)) CancelDialog.initial) =
    if cr_id r =? 0 then None else Some (cr_id r).
Proof.
  cbv zeta.
  assert (H : In (CANCEL (Some 42))
                (slotActions (getSlotStatus (Some 1500) (Some Sample.alice)
                   (Sample.slotA1 false (Some (Sample.booking "PENDING"))))))
    by (left; reflexivity).
  split; [exact H|].
  exact (cancel_targets_own_reservation (Some 1500) (Some Sample.alice)
           (Sample.slotA1 false (Some (Sample.booking "PENDING"))) (Some 42)
           CancelDialog.initial H).
Defined.

(** On page 3 of 3, Prev leads to page 2; Next is marked disabled, and its
    handler would store page 4. *)
Lemma page_stays_in_range_sample :
  (1 <= 3 <= 3 /\ In Pagination.Next (Pagination.controls 3 3) /\
   In Pagination.Prev (Pagination.controls 3 3)) /\
  1 <= Pagination.click 3 3 Pagination.Prev <= 3 /\
  Pagination.disabled 3 3 Pagination.Next = true /\
  Pagination.click 3 3 Pagination.Next = 4.
Proof.
  assert (Hrange : 1 <= 3 <= 3) by lia.
  assert (Hnext : In Pagination.Next (Pagination.controls 3 3))
    by (vm_compute; do 5 right; left; reflexivity).
  assert (Hprev : In Pagination.Prev (Pagination.controls 3 3))
    by (vm_compute; right; left; reflexivity).
  split; [auto|]. split.
  - destruct (PaginationFacts.page_stays_in_range 3 3 Pagination.Prev Hrange Hprev)
      as (_ & Henabled & _).
    apply Henabled. reflexivity.
  - destruct (PaginationFacts.page_stays_in_range 3 3 Pagination.Next Hrange Hnext)
      as (_ & _ & _ & Hlast).
    exact (Hlast eq_refl eq_refl).
Defined.

(** A start at 3000 picked at 1000, then an end at 4000: the button is
    enabled.  The reservation is then created at 5000: the button is still
    enabled, with both pickers at 5000. *)
Lemma enabled_means_ordered_sample :
  let picked := [TimeForm.StartChange (Some 1000) (Some (Some 3000));
                 TimeForm.EndChange (Some (Some 4000))] in
  let created := TimeForm.Submit true (Normal 201) (Some 5000) (Some 5000) in
  (TimeForm.submitDisabled (TimeForm.run picked Scenario.lateStart) = false /\
   3000 < 4000) /\
  TimeForm.submitDisabled (TimeForm.run (picked ++ [created]) Scenario.lateStart) = false /\
  TimeForm.startTime (TimeForm.run (picked ++ [created]) Scenario.lateStart)
    = Some (Some 5000) /\
  TimeForm.endTime (TimeForm.run (picked ++ [created]) Scenario.lateStart)
    = Some (Some 5000).
Proof.
  cbv zeta. split; [split; [reflexivity|]|].
  - destruct (TimeFormFacts.enabled_means_ordered
                [TimeForm.StartChange (Some 1000) (Some (Some 3000))]
                (TimeForm.EndChange (Some (Some 4000))) Scenario.lateStart)
      as (Hordered & _).
    apply (Hordered eq_refl 3000 4000); reflexivity.
  - destruct (TimeFormFacts.enabled_means_ordered
                [TimeForm.StartChange (Some 1000) (Some (Some 3000));
                 TimeForm.EndChange (Some (Some 4000))]
                (TimeForm.Submit true (Normal 201) (Some 5000) (Some 5000))
                Scenario.lateStart)
      as (_ & Hsame & Hreset).
    destruct (Hsame true (Normal 201) (Some 5000) (Some 5000) eq_refl) as (_ & _ & Hd).
    split; [rewrite Hd; reflexivity|].
    exact (Hreset (Some 5000) (Some 5000) 3000 4000 eq_refl eq_refl eq_refl).
Defined.

(** With a start in the past, moving the end and emptying the start picker
    leave the button disabled. *)
Lemma start_error_is_sticky_sample :
  let events := [TimeForm.EndChange (Some (Some 9000));
                 TimeForm.StartChange (Some 1000) None] in
  (forallb TimeForm.keepsStartError events = true /\
   TimeForm.startTimeError Scenario.lateStart <> "") /\
  TimeForm.startTimeError (TimeForm.run events Scenario.lateStart) =
    TimeForm.startTimeError Scenario.lateStart /\
  TimeForm.submitDisabled (TimeForm.run events Scenario.lateStart) = true.
Proof.
  cbv zeta. split; [split; [reflexivity | discriminate]|].
  apply (TimeFormFacts.start_error_is_sticky
           [TimeForm.EndChange (Some (Some 9000)); TimeForm.StartChange (Some 1000) None]
           Scenario.lateStart); [reflexivity | discriminate].
Defined.

(** A start at 3000 picked at 1000 and an end at 4000 picked later. *)
Lemma enabled_means_future_start_sample :
  let events := [TimeForm.EndChange (Some (Some 4000))] in
  (forallb TimeForm.keepsStartError events = true /\
   TimeForm.submitDisabled
     (TimeForm.run events
        (TimeForm.handleStartTimeChange (Some 1000) (Some (Some 3000)) Scenario.lateStart))
   = false) /\
  1000 < 3000.
Proof.
  cbv zeta. split; [split; reflexivity|].
  apply (TimeFormFacts.enabled_means_future_start (Some 1000) 3000
           [TimeForm.EndChange (Some (Some 4000))] Scenario.lateStart 1000);
    reflexivity.
Defined.

(** Confirming reservation 1 in a list of three. *)
Lemma onMutate_only_target_sample :
  let prev := [Scenario.oldest; Scenario.middle; Scenario.newest] in
  prev !! 0%nat = Some Scenario.oldest /\
  exists r', onMutate (CONFIRM 1) prev !! 0%nat = Some r' /\
    (id Scenario.oldest <> 1 -> r' = Scenario.oldest) /\
    (id Scenario.oldest = 1 ->
     cardActions r' = [] /\ with_status r' (status Scenario.oldest) = Scenario.oldest).
Proof.
  cbv zeta. split; [reflexivity|].
  apply (onMutate_only_target (CONFIRM 1)
           [Scenario.oldest; Scenario.middle; Scenario.newest] 0 Scenario.oldest).
  reflexivity.
Defined.

(** Reservation 1 ends at 2000; its confirmation is sent at 1500, the
    interval fires at 2500, the request fails, the interval fires at 3500. *)
Lemma failed_mutation_leaves_no_trace_sample :
  let prev := [Scenario.oldest; Scenario.middle; Scenario.newest] in
  let clock1 : nat -> Date := fun _ => Some 2500 in
  let clock2 : nat -> Date := fun _ => Some 3500 in
  (Forall (fun r => id r = targetId (CONFIRM 1) -> status r = "PENDING") prev /\
   (forall i, JsDate.le (clock1 i) (clock2 i) = true)) /\
  map status (autoUpdateAll clock1 (onMutate (CONFIRM 1) prev))
    = ["COMPLETED"; "COMPLETED"; "PENDING"] /\
  autoUpdateAll clock2 (onError (CONFIRM 1) (autoUpdateAll clock1 (onMutate (CONFIRM 1) prev)))
    = autoUpdateAll clock2 (autoUpdateAll clock1 prev).
Proof.
  cbv zeta.
  assert (Hprev : Forall (fun r => id r = targetId (CONFIRM 1) -> status r = "PENDING")
                    [Scenario.oldest; Scenario.middle; Scenario.newest]).
  { repeat constructor; cbn; intros H; (reflexivity || discriminate H). }
  assert (Hclock : forall i : nat,
            JsDate.le ((fun _ => Some 2500) i) ((fun _ => Some 3500) i) = true)
    by (intros i; reflexivity).
  split; [split; assumption|]. split; [reflexivity|].
  exact (failed_mutation_leaves_no_trace (CONFIRM 1) (fun _ => Some 2500)
           (fun _ => Some 3500) _ Hprev Hclock).
Defined.

(** A CONFIRMED reservation whose end time did not parse. *)
Lemma confirmed_without_end_in_no_tab_sample :
  let r := Scenario.row 9 "CONFIRMED" "2025-01-01T00:00:00Z" None in
  (status r = "CONFIRMED" /\ end_time r = None /\ In "confirmed" tabKeys) /\
  inTab "confirmed" (Some 1500) r = false.
Proof.
  cbv zeta. assert (H : In "confirmed" tabKeys) by (cbn; auto).
  split; [repeat split; exact H|].
  exact (confirmed_without_end_in_no_tab (Some 1500)
           (Scenario.row 9 "CONFIRMED" "2025-01-01T00:00:00Z" None) "confirmed"
           eq_refl eq_refl H).
Defined.

(** The CONFIRMED reservation that ended at 2000, looked at at 2500. *)
Lemma badge_agrees_with_tab_sample :
  (In "completed" tabKeys /\ inTab "completed" (Some 2500) Scenario.middle = true) /\
  badge_text (getStatusBadge (Some 2500) Scenario.middle) = "COMPLETED".
Proof.
  assert (H : In "completed" tabKeys) by (cbn; auto).
  split; [split; [exact H | reflexivity]|].
  exact (badge_agrees_with_tab (Some 2500) Scenario.middle "completed" H eq_refl).
Defined.

(** The first page links to the second, whose link leads to a request
    that fails: the two pages are stored and nothing tells of the third. *)
Lemma loadAllReservations_collects_pages_sample :
  let st := {| allReservations := []; isLoadingMore := false |} in
  (Pages Scenario.get (next Scenario.page1) [Scenario.page2] true /\
   (length [Scenario.page2] < 5)%nat) /\
  loadAllReservations 5 Scenario.get (Some Scenario.page1) st =
  Some {| allReservations := [Scenario.oldest; Scenario.middle];
          isLoadingMore := false |}.
Proof.
  cbv zeta.
  assert (Hpages : Pages Scenario.get (next Scenario.page1) [Scenario.page2] true).
  { apply pages_next; [discriminate | reflexivity |].
    eapply pages_fail; [discriminate | reflexivity]. }
  assert (Hfuel : (length [Scenario.page2] < 5)%nat) by (cbn; lia).
  split; [split; assumption|].
  exact (loadAllReservations_collects_pages Scenario.get Scenario.page1
           [Scenario.page2] true _ 5%nat Hpages Hfuel).
Defined.

(** The page that links to itself. *)
Lemma loadMore_cycle_diverges_sample :
  ("loop" <> "" /\ Scenario.get "loop" = Normal Scenario.loopPage /\
   next Scenario.loopPage = Some "loop") /\
  loadMore 1000 Scenario.get [] (Some "loop") = None.
Proof.
  assert (H1 : "loop" <> "") by discriminate.
  split; [repeat split; exact H1|].
  exact (loadMore_cycle_diverges Scenario.get "loop" Scenario.loopPage
           H1 eq_refl eq_refl 1000%nat []).
Defined.

(** The admin logs in through the admin form. *)
Lemma login_success_establishes_session_sample :
  let r := {| Auth.access := "acc"; Auth.refresh := "ref" |} in
  let result := Auth.login Sample.stringify Scenario.adminServer
                  "root@example.com" "secret" true Sample.loggedIn in
  (Auth.post_token Scenario.adminServer "root@example.com" "secret" = Normal r /\
   Auth.get_users_me Scenario.adminServer ("Bearer " +:+ Auth.access r) = Normal Sample.root /\
   (true = true -> role Sample.root = "ADMIN")) /\
  fst result = Normal tt /\
  Auth.token (snd result) = Some "acc" /\
  Auth.user (snd result) = Some Sample.root /\
  Session.isAdmin (snd result) = true.
Proof.
  cbv zeta. split; [repeat split|].
  destruct (SessionFacts.login_success_establishes_session Sample.stringify
              Scenario.adminServer "root@example.com" "secret" true Sample.loggedIn
              {| Auth.access := "acc"; Auth.refresh := "ref" |} Sample.root
              eq_refl eq_refl (fun _ => eq_refl))
    as (H1 & H2 & H3 & _ & _ & _ & _ & _ & H9).
  split; [exact H1|]. split; [exact H2|]. split; [exact H3|]. exact (H9 eq_refl).
Defined.

(** A page load with a token and the entry [null] for the user: the
    context ends authenticated, with no user. *)
Lemma initializeAuth_restores_stored_session_sample :
  let s' := snd (Session.initializeAuth Scenario.parse Scenario.nullUserStored) in
  Session.isAuthenticated s' = true /\ Auth.user s' = None /\ Session.isAdmin s' = false.
Proof.
  destruct (SessionFacts.initializeAuth_restores_stored_session
              Scenario.parse Scenario.nullUserStored) as (_ & _ & _ & Hnull & _).
  apply (Hnull "acc" "null");
    [reflexivity | discriminate | reflexivity | discriminate | reflexivity].
Defined.

(** Bob logs in through the user form and reloads the page. *)
Lemma session_survives_reload_sample :
  let r := {| Auth.access := "acc"; Auth.refresh := "ref" |} in
  let s1 := snd (Auth.login Sample.stringify Sample.accepting
                   "bob@example.com" "secret" false Sample.loggedIn) in
  let s2 := snd (Session.initializeAuth Scenario.parse (Session.reload s1)) in
  (Auth.post_token Sample.accepting "bob@example.com" "secret" = Normal r /\
   Auth.get_users_me Sample.accepting ("Bearer " +:+ Auth.access r) = Normal Sample.bob /\
   Auth.access r <> "" /\ Sample.stringify Sample.bob <> "" /\
   Scenario.parse (Sample.stringify Sample.bob) = Normal (Some Sample.bob)) /\
  Auth.token s2 = Auth.token s1 /\ Auth.user s2 = Auth.user s1 /\
  Session.isAuthenticated s2 = true.
Proof.
  cbv zeta.
  assert (Ha : Auth.access {| Auth.access := "acc"; Auth.refresh := "ref" |} <> "")
    by discriminate.
  assert (Hs : Sample.stringify Sample.bob <> "") by discriminate.
  split; [repeat split; assumption|].
  destruct (SessionFacts.session_survives_reload Sample.stringify Scenario.parse
              Sample.accepting "bob@example.com" "secret" false Sample.loggedIn
              {| Auth.access := "acc"; Auth.refresh := "ref" |} Sample.bob
              eq_refl eq_refl (fun H => False_ind _ (Bool.diff_false_true H)) Ha Hs eq_refl)
    as (H1 & H2 & _ & _ & H5).
  split; [exact H1|]. split; [exact H2 | exact H5].
Defined.

(** Alice, logged in, changes her profile to Bob's data and reloads. *)
Lemma updateUser_survives_reload_sample :
  let s1 := snd (Session.updateUser Sample.stringify Sample.bob Sample.loggedIn) in
  let s2 := snd (Session.initializeAuth Scenario.parse (Session.reload s1)) in
  (Auth.localStorage Sample.loggedIn !! "access_token" = Some "old" /\
   "old" <> "" /\ Sample.stringify Sample.bob <> "" /\
   Scenario.parse (Sample.stringify Sample.bob) = Normal (Some Sample.bob)) /\
  Auth.user s2 = Some Sample.bob /\ Auth.token s2 = Some "old".
Proof.
  cbv zeta.
  assert (Hl : Auth.localStorage Sample.loggedIn !! "access_token" = Some "old")
    by reflexivity.
  assert (Ht : "old" <> "") by discriminate.
  assert (Hs : Sample.stringify Sample.bob <> "") by discriminate.
  split; [repeat split; assumption|].
  destruct (SessionFacts.updateUser_survives_reload Sample.stringify Scenario.parse
              Sample.bob Sample.loggedIn "old" Hl Ht Hs eq_refl)
    as (_ & _ & _ & H4 & H5).
  split; [exact H4 | exact H5].
Defined.

(** The e-mail address is taken: the registration request is refused in a
    browser that holds Alice's session. *)
Lemma register_failure_leaves_no_session_sample :
  let result := Session.register Sample.stringify Sample.accepting Scenario.taken
                  Scenario.noDetail Scenario.newAccount Sample.loggedIn in
  fst result = Throw (Error "Registration failed. Please check your input.") /\
  Auth.noSession (snd result) /\
  Auth.loading (snd result) = false.
Proof.
  cbv zeta.
  assert (H : fst (Session.register Sample.stringify Sample.accepting Scenario.taken
                     Scenario.noDetail Scenario.newAccount Sample.loggedIn)
              = Throw (Error "Registration failed. Please check your input."))
    by reflexivity.
  split; [exact H|].
  exact (SessionFacts.register_failure_leaves_no_session Sample.stringify
           Sample.accepting Scenario.taken Scenario.noDetail Scenario.newAccount
           Sample.loggedIn _ H).
Defined.

(** The account is created, but the backend then rejects the credentials. *)
Lemma register_ends_as_login_sample :
  Scenario.created Scenario.newAccount = Normal tt /\
  fst (Session.register Sample.stringify Sample.rejecting Scenario.created
         Scenario.noDetail Scenario.newAccount Sample.loggedIn) =
  fst (Auth.login Sample.stringify Sample.rejecting "bob@example.com" "secret12" false
         Sample.loggedIn).
Proof.
  split; [reflexivity|].
  exact (proj1 (SessionFacts.register_ends_as_login Sample.stringify Sample.rejecting
                  Scenario.created Scenario.noDetail Scenario.newAccount
                  Sample.loggedIn eq_refl)).
Defined.
